(** * hewpao-frontend: the paginated product list and the detail-page edit toggle

  A shallow embedding of the component-local state logic of
  [src/app/component/ProductCard.tsx] (the list view with "load more") and
  of the product detail page (edit / cancel / confirm), followed by the
  properties the specification states about them.

  React state cells ([useState], [useRef]) become fields of a record and
  every handler becomes a function from state to state.  State writes that
  React batches within one handler are applied in program order. *)

From stdpp Require Import base numbers list strings gmap pretty.

Open Scope Z_scope.

(** ** JavaScript values carried by a product record *)

Module Js.

(** The primitive values a decoded JSON record can hold.  A property that
    is not there reads as [undefined]; it is the [None] of a lookup.
    Numbers are the integers (identifiers and page counters stay far below
    2^53, decoded JSON has no NaN). *)
Inductive JsVal : Type :=
| JNull
| JBool (b : bool)
| JNum (n : Z)
| JStr (s : string).

#[global] Instance JsVal_eq_dec : EqDecision JsVal.
Proof. solve_decision. Defined.

(** [a === b] on primitives (and [undefined]). *)
Definition strict_eq (a b : option JsVal) : bool :=
  match a, b with
  | None, None => true
  | Some JNull, Some JNull => true
  | Some (JBool x), Some (JBool y) => Bool.eqb x y
  | Some (JNum x), Some (JNum y) => Z.eqb x y
  | Some (JStr x), Some (JStr y) => String.eqb x y
  | _, _ => false
  end.

(** Truthiness, as used by [!v] and [v && ...]. *)
Definition truthy (v : option JsVal) : bool :=
  match v with
  | None => false
  | Some JNull => false
  | Some (JBool b) => b
  | Some (JNum n) => negb (Z.eqb n 0)
  | Some (JStr s) => negb (String.eqb s "")
  end.

(** [String(v)]. *)
Definition String_ (v : option JsVal) : string :=
  match v with
  | None => "undefined"
  | Some JNull => "null"
  | Some (JBool true) => "true"
  | Some (JBool false) => "false"
  | Some (JNum n) => pretty n
  | Some (JStr s) => s
  end.

End Js.

Import Js.

(** A product is a JavaScript object: a finite map from property names to
  values.  [p !! "id"] is [p.id]. *)
Abbreviation Product := (gmap string JsVal).

Definition id_of (p : Product) : option JsVal := p !! "id".

(** ** The list view, [ProductCard] *)

Module ProductCard.

(** What [useGetPaginatedProductRequests] hands to the component. *)
Inductive DataField : Type :=
| DataUndefined                      (* no [data] property *)
| DataNull                           (* [data: null] *)
| DataNotArray                       (* an object, a string, a number ... *)
| DataArray (items : list Product).

Inductive ProductData : Type :=
| NoProductData                      (* [undefined] while nothing is loaded *)
| ProductDataObj (data : DataField).

Record QueryResult : Type := mkQueryResult {
  productData : ProductData;
  error : bool                       (* truthiness of the [error] value *)
}.

Record State : Type := mkState {
  page : Z;
  hasMore : bool;
  allProducts : list Product;
  isLoadingMore : bool;
  lastLoadedPage : Z;                (* [lastLoadedPage.current] *)
  refetchCalls : nat                 (* calls of [productFetch()] so far *)
}.

Definition initial : State :=
  {| page := 1; hasMore := true; allProducts := [];
     isLoadingMore := false; lastLoadedPage := 0; refetchCalls := 0 |}.

Definition pageSize : Z := 8.

(** State writes. *)
Definition setPage (f : Z → Z) (s : State) : State :=
  mkState (f (page s)) (hasMore s) (allProducts s) (isLoadingMore s)
          (lastLoadedPage s) (refetchCalls s).
Definition setHasMore (b : bool) (s : State) : State :=
  mkState (page s) b (allProducts s) (isLoadingMore s)
          (lastLoadedPage s) (refetchCalls s).
Definition setAllProducts (f : list Product → list Product) (s : State) : State :=
  mkState (page s) (hasMore s) (f (allProducts s)) (isLoadingMore s)
          (lastLoadedPage s) (refetchCalls s).
Definition setIsLoadingMore (b : bool) (s : State) : State :=
  mkState (page s) (hasMore s) (allProducts s) b
          (lastLoadedPage s) (refetchCalls s).
Definition setLastLoadedPage (n : Z) (s : State) : State :=
  mkState (page s) (hasMore s) (allProducts s) (isLoadingMore s)
          n (refetchCalls s).
Definition productFetch (s : State) : State :=
  mkState (page s) (hasMore s) (allProducts s) (isLoadingMore s)
          (lastLoadedPage s) (S (refetchCalls s)).

(** [productData && productData.data !== undefined && productData.data !== null] *)
Definition hasValidData (pd : ProductData) : bool :=
  match pd with
  | NoProductData => false
  | ProductDataObj DataUndefined => false
  | ProductDataObj DataNull => false
  | ProductDataObj _ => true
  end.

Definition isArray (d : DataField) : bool :=
  match d with DataArray _ => true | _ => false end.

(** [hasValidData && Array.isArray(productData.data)] *)
Definition hasDataArray (pd : ProductData) : bool :=
  hasValidData pd &&
  match pd with
  | ProductDataObj d => isArray d
  | NoProductData => false
  end.

(** [productData.data], read where [hasDataArray] holds. *)
Definition data_of (pd : ProductData) : list Product :=
  match pd with
  | ProductDataObj (DataArray items) => items
  | _ => []
  end.

(** [productData.data.filter(newProduct =>
       !prev.some(existingProduct => existingProduct.id === newProduct.id))] *)
Definition newProducts (data prev : list Product) : list Product :=
  List.filter
    (fun newProduct =>
       negb (existsb
               (fun existingProduct =>
                  strict_eq (id_of existingProduct) (id_of newProduct))
               prev))
    data.

(** The end-of-data test of the updater:
    [productData.data.length < pageSize || newProducts.length === 0]. *)
Definition reachedEnd (data fresh : list Product) : bool :=
  (Z.of_nat (length data) <? pageSize) || (Nat.eqb (length fresh) 0).

(** The function passed to [setAllProducts]: the new list, and whether it
    called [setHasMore(false)] on the way. *)
Definition mergeUpdater (page : Z) (data prev : list Product)
  : list Product * bool :=
  if page =? 1 then (data, false)
  else
    let fresh := newProducts data prev in
    (prev ++ fresh, reachedEnd data fresh).

(** The body of the [useEffect], run with the query result of that render. *)
Definition effect (r : QueryResult) (s0 : State) : State :=
  let s := productFetch s0 in
  if lastLoadedPage s =? page s then s
  else if error r then setIsLoadingMore false s
  else if hasDataArray (productData r) then
    let s1 := setLastLoadedPage (page s) s in
    let upd := mergeUpdater (page s) (data_of (productData r)) in
    let s2 := setAllProducts (fun prev => fst (upd prev)) s1 in
    let s3 := if snd (upd (allProducts s1)) then setHasMore false s2 else s2 in
    setIsLoadingMore false s3
  else
    let s1 := if page s =? 1 then setAllProducts (fun _ => []) s else s in
    let s2 := setHasMore false s1 in
    setIsLoadingMore false s2.

(** [handleManualLoad]. *)
Definition handleManualLoad (s : State) : State :=
  if isLoadingMore s || negb (hasMore s) then s
  else setPage (fun prev => prev + 1) (setIsLoadingMore true s).

(** The grid: [allProducts.map(product => ...)], a card per product or
    [null] when the guard [!product || !product.id] fires.  A card is
    identified by its [key], the product's id. *)
Definition renderCard (product : Product) : option JsVal :=
  if negb (truthy (id_of product)) then None else id_of product.

Definition renderGrid (s : State) : list (option JsVal) :=
  List.map renderCard (allProducts s).

(** What can happen to a mounted list view. *)
Inductive Event : Type :=
| Delivered (r : QueryResult)        (* the effect runs on a query result *)
| LoadMoreClicked.

Definition step (s : State) (e : Event) : State :=
  match e with
  | Delivered r => effect r s
  | LoadMoreClicked => handleManualLoad s
  end.

Definition run (es : list Event) (s : State) : State := foldl step s es.

Inductive reachable : State → Prop :=
| reach_init : reachable initial
| reach_step s e : reachable s → reachable (step s e).

End ProductCard.

(** ** The detail page, [ProductDetailPage] *)

Module ProductDetailPage.

(** [products.find(product => String(product.id) === String(id))]; the
    catalog [products] is the mock-data fixture, the route parameter [id] is
    a string. *)
Definition findProduct (products : list Product) (id : string) : option Product :=
  List.find (fun product => String.eqb (String_ (id_of product)) id) products.

Record State : Type := mkState {
  isEditing : bool;
  editedProduct : Product
}.

(** The two [useState] cells as first rendered for a found [product]. *)
Definition initial (product : Product) : State :=
  {| isEditing := false; editedProduct := product |}.

(** The component up to its hooks: "Product not found" ([None]) or the
    found product with its fresh state. *)
Definition mount (products : list Product) (id : string) : option (Product * State) :=
  match findProduct products id with
  | None => None
  | Some product => Some (product, initial product)
  end.

Definition handleEdit (s : State) : State :=
  {| isEditing := true; editedProduct := editedProduct s |}.

Definition handleCancel (product : Product) (s : State) : State :=
  {| isEditing := false; editedProduct := product |}.

Definition handleConfirm (s : State) : State :=
  {| isEditing := false; editedProduct := editedProduct s |}.

(** [setEditedProduct(prevState => ({...prevState, [name]: value}))] with
    [name] and [value] read from the event's target. *)
Definition handleChange (name value : string) (s : State) : State :=
  {| isEditing := isEditing s;
     editedProduct := <[name := JStr value]> (editedProduct s) |}.

(** What the three editable places show: the inputs' [value] in edit mode,
    the source product's fields otherwise (the static text puts a label
    around them). *)
Record Shown : Type := mkShown {
  shownName : option JsVal;
  shownDesc : option JsVal;
  shownCategory : option JsVal
}.

Definition render (product : Product) (s : State) : Shown :=
  if isEditing s then
    {| shownName := editedProduct s !! "name";
       shownDesc := editedProduct s !! "desc";
       shownCategory := editedProduct s !! "category" |}
  else
    {| shownName := product !! "name";
       shownDesc := product !! "desc";
       shownCategory := product !! "category" |}.

Inductive Event : Type :=
| EditClicked
| CancelClicked
| ConfirmClicked
| Changed (name value : string).

Definition step (product : Product) (s : State) (e : Event) : State :=
  match e with
  | EditClicked => handleEdit s
  | CancelClicked => handleCancel product s
  | ConfirmClicked => handleConfirm s
  | Changed name value => handleChange name value s
  end.

Definition run (product : Product) (es : list Event) (s : State) : State :=
  foldl (step product) s es.

End ProductDetailPage.

(** ** The specification's vocabulary *)

Module Spec.

Import ProductCard.

(** The identifiers held by a list of products, in order. *)
Definition ids (l : list Product) : list (option JsVal) := id_of <$> l.

(** "The subset of response items whose identifiers are not already present
    in the accumulated list, preserving response order." *)
Definition notAlreadyPresent (response accumulated : list Product) : list Product :=
  filter (λ item, id_of item ∉ ids accumulated) response.

(** "No two entries with the same identifier." *)
Definition uniqueIds (l : list Product) : Prop := NoDup (ids l).

(** A response the merge branch accepts, carrying [items]. *)
Definition validResponse (items : list Product) : QueryResult :=
  {| productData := ProductDataObj (DataArray items); error := false |}.

(** "Absent, malformed (not an array), or an empty array." *)
Definition noData (pd : ProductData) : Prop :=
  pd = NoProductData ∨ pd = ProductDataObj DataUndefined ∨
  pd = ProductDataObj DataNull ∨ pd = ProductDataObj DataNotArray ∨
  pd = ProductDataObj (DataArray []).

(** The events of a run all deliver valid arrays or are load-more clicks. *)
Definition successful (e : Event) : Prop :=
  match e with
  | Delivered r => ∃ items, r = validResponse items
  | LoadMoreClicked => True
  end.

(** Every array delivered in the run is itself free of repeated identifiers. *)
Definition deliversUniqueIds (e : Event) : Prop :=
  match e with
  | Delivered r => uniqueIds (data_of (productData r))
  | LoadMoreClicked => True
  end.

(** What every state of a mounted list view satisfies: the marker never
    runs ahead of the page, and a load is in flight only for a page that is
    not marked yet. *)
Definition marker_inv (s : State) : Prop :=
  lastLoadedPage s ≤ page s ∧
  (lastLoadedPage s = page s → isLoadingMore s = false).

End Spec.

(** ** What the list view renders *)

Module ProductCardView.

Import ProductCard.

(** [s.includes(search)]: [search] starts at some position of [s]. *)
Fixpoint includes (s search : string) : bool :=
  String.prefix search s ||
  match s with
  | EmptyString => false
  | String _ rest => includes rest search
  end.

(** [pathname.includes("/product-requests")] *)
Definition isTravelerPage (pathname : string) : bool :=
  includes pathname "/product-requests".

(** [v || d] for a property read [v] and a literal [d]. *)
Definition or_else (v : option JsVal) (d : JsVal) : JsVal :=
  match v with
  | Some x => if truthy v then x else d
  | None => d
  end.

(** The text parts of a card and its offer button; the image block is left
    out (a product here carries primitive fields only). *)
Record Card : Type := mkCard {
  key : option JsVal;                (* [key={product.id}] *)
  title : JsVal;                     (* [product.name || "Unnamed Product"] *)
  deliverFrom : JsVal;               (* [product.deliver_from || "Not specified"] *)
  deliverTo : JsVal;                 (* [product.deliver_to || "Not specified"] *)
  price : string;
  offerFor : option JsVal            (* [productRequestID] of the button, if shown *)
}.

(** [typeof product.budget === 'number' ? `${product.budget} THB` : "Price not set"] *)
Definition priceLabel (product : Product) : string :=
  match product !! "budget" with
  | Some (JNum n) => pretty n +:+ " THB"
  | _ => "Price not set"
  end.

(** One element of [allProducts.map(product => ...)]. *)
Definition card (travelerPage : bool) (product : Product) : option Card :=
  if negb (truthy (id_of product)) then None
  else Some {|
    key := id_of product;
    title := or_else (product !! "name") (JStr "Unnamed Product");
    deliverFrom := or_else (product !! "deliver_from") (JStr "Not specified");
    deliverTo := or_else (product !! "deliver_to") (JStr "Not specified");
    price := priceLabel product;
    offerFor := if travelerPage && truthy (id_of product)
                then id_of product else None
  |}.

(** Below the grid: the button (disabled and showing "Loading..." while a
    load is in flight), the closing message, or nothing. *)
Inductive Footer : Type :=
| LoadMoreButton (loading : bool)
| AllSeen
| NoFooter.

Inductive View : Type :=
| LoadingView
| EmptyView
| GridView (cards : list (option Card)) (footer : Footer).

(** The three [return]s of the component, for the query's [isLoading]. *)
Definition view (pathname : string) (loadingProducts : bool) (s : State) : View :=
  if loadingProducts && (page s =? 1) then LoadingView
  else if negb loadingProducts && Nat.eqb (length (allProducts s)) 0 then EmptyView
  else
    GridView
      (List.map (card (isTravelerPage pathname)) (allProducts s))
      (if hasMore s then LoadMoreButton (isLoadingMore s)
       else if Nat.ltb 0 (length (allProducts s)) then AllSeen
       else NoFooter).

(** The keys React compares in the grid: it turns every [key] into a string
    before it compares them. *)
Definition reactKeys (cards : list (option Card)) : list string :=
  (λ c, String_ (key c)) <$> omap (λ c, c) cards.

(** A product whose identifier, if it has one, is a string. *)
Definition stringId (product : Product) : Prop :=
  match id_of product with
  | None => True
  | Some (JStr _) => True
  | Some _ => False
  end.

(** The arrays delivered in a run hold products with string identifiers. *)
Definition deliversStringIds (e : Event) : Prop :=
  match e with
  | Delivered r => Forall stringId (data_of (productData r))
  | LoadMoreClicked => True
  end.

(** The button can be pressed: it is there and not disabled. *)
Definition canLoadMore (v : View) : bool :=
  match v with
  | GridView _ (LoadMoreButton false) => true
  | _ => false
  end.

(** The number of times the effect ran in a run, and the clicks in it. *)
Definition deliveries (es : list Event) : nat :=
  length (List.filter (fun e => match e with Delivered _ => true | _ => false end) es).

Definition clicks (es : list Event) : nat :=
  length (List.filter (fun e => match e with LoadMoreClicked => true | _ => false end) es).

(** The effect takes its merge branch on [r] in state [s]. *)
Definition merges (r : QueryResult) (s : State) : bool :=
  negb (lastLoadedPage s =? page s) && negb (error r) &&
  hasDataArray (productData r).

(** [handleManualLoad] as the closure it is: the guard reads [isLoadingMore]
    and [hasMore] of the render the handler was created in, and the two
    writes ([setPage] with an updater) queue on the state pending since. *)
Definition handleManualLoadIn (rendered pending : State) : State :=
  if isLoadingMore rendered || negb (hasMore rendered) then pending
  else setPage (fun prev => prev + 1) (setIsLoadingMore true pending).

(** What holds of every state of a mounted list view. *)
Definition state_inv (s : State) : Prop :=
  1 ≤ page s ∧
  0 ≤ lastLoadedPage s ≤ page s ∧
  (isLoadingMore s = true → hasMore s = true ∧ lastLoadedPage s < page s) ∧
  (lastLoadedPage s = 0 → allProducts s = []).

End ProductCardView.

(** ** The controls of the detail page *)

Module ProductDetailForm.

Import ProductDetailPage.

(** The three form fields shown in edit mode. *)
Inductive Input : Type :=
| NameInput
| DescriptionTextarea
| CategoryInput.

(** The [name] attribute of a field: the key [handleChange] writes. *)
Definition inputName (i : Input) : string :=
  match i with
  | NameInput => "name"
  | DescriptionTextarea => "description"
  | CategoryInput => "category"
  end.

(** The [value] attribute of a field: the key it reads. *)
Definition inputValue (i : Input) (s : State) : option JsVal :=
  match i with
  | NameInput => editedProduct s !! "name"
  | DescriptionTextarea => editedProduct s !! "desc"
  | CategoryInput => editedProduct s !! "category"
  end.

(** [onChange={handleChange}] on field [i] when the user types [value]. *)
Definition onChange (i : Input) (value : string) (s : State) : State :=
  handleChange (inputName i) value s.

(** [onClick={isEditing ? handleConfirm : handleEdit}] *)
Definition mainButton (s : State) : State :=
  if isEditing s then handleConfirm s else handleEdit s.

(** What the user can do: the fields and the cancel button exist in edit
    mode only. *)
Inductive UiEvent : Type :=
| MainClicked
| CancelButtonClicked
| Typed (i : Input) (value : string).

Definition uiStep (product : Product) (s : State) (e : UiEvent) : State :=
  match e with
  | MainClicked => mainButton s
  | CancelButtonClicked => if isEditing s then handleCancel product s else s
  | Typed i value => if isEditing s then onChange i value s else s
  end.

Definition uiRun (product : Product) (es : list UiEvent) (s : State) : State :=
  foldl (uiStep product) s es.

End ProductDetailForm.

(** ** The form fields as the browser shows them *)

Module ProductDetailDom.

Import ProductDetailPage ProductDetailForm.

#[global] Instance Input_eq_dec : EqDecision Input.
Proof. solve_decision. Defined.

(** React controls a field whose [value] is neither [undefined] nor [null];
    any other field is left to the browser. *)
Definition controlled (value : option JsVal) : bool :=
  match value with
  | None => false
  | Some JNull => false
  | Some _ => true
  end.

(** The text standing in the three fields while the form is on the page. *)
Record Form : Type := mkForm {
  nameText : string;
  descText : string;
  categoryText : string
}.

Definition textOf (i : Input) (f : Form) : string :=
  match i with
  | NameInput => nameText f
  | DescriptionTextarea => descText f
  | CategoryInput => categoryText f
  end.

Definition setText (i : Input) (text : string) (f : Form) : Form :=
  match i with
  | NameInput => mkForm text (descText f) (categoryText f)
  | DescriptionTextarea => mkForm (nameText f) text (categoryText f)
  | CategoryInput => mkForm (nameText f) (descText f) text
  end.

(** A render puts the [value] of a controlled field into it, as a string,
    and leaves an uncontrolled field with the text it holds. *)
Definition fieldAfterRender (s : State) (f : Form) (i : Input) : string :=
  if controlled (inputValue i s) then String_ (inputValue i s) else textOf i f.

Definition afterRender (s : State) (f : Form) : Form :=
  mkForm (fieldAfterRender s f NameInput)
         (fieldAfterRender s f DescriptionTextarea)
         (fieldAfterRender s f CategoryInput).

(** Fields as first put on the page: empty unless controlled. *)
Definition blank : Form := mkForm "" "" "".

(** The page: the component state and, in edit mode only, the form. *)
Record Page : Type := mkPage {
  state : State;
  form : option Form
}.

Definition opened (product : Product) : Page :=
  mkPage (initial product) None.

(** A click on the main button: Confirm takes the form off the page, Edit
    puts a fresh one on it. *)
Definition clickMain (pg : Page) : Page :=
  let s := mainButton (state pg) in
  mkPage s (if isEditing s then Some (afterRender s blank) else None).

(** The cancel button is rendered in edit mode only. *)
Definition clickCancel (product : Product) (pg : Page) : Page :=
  if isEditing (state pg) then mkPage (handleCancel product (state pg)) None
  else pg.

(** The user makes [text] the content of field [i]: the browser puts it in
    the field, [onChange] runs with it, the component renders again. *)
Definition typeInto (i : Input) (text : string) (pg : Page) : Page :=
  match form pg with
  | Some f =>
      let s := onChange i text (state pg) in
      mkPage s (Some (afterRender s (setText i text f)))
  | None => pg
  end.

Definition domStep (product : Product) (pg : Page) (e : UiEvent) : Page :=
  match e with
  | MainClicked => clickMain pg
  | CancelButtonClicked => clickCancel product pg
  | Typed i text => typeInto i text pg
  end.

Definition domRun (product : Product) (es : list UiEvent) (pg : Page) : Page :=
  foldl (domStep product) pg es.

(** What field [i] shows, if it is on the page. *)
Definition shows (i : Input) (pg : Page) : option string :=
  textOf i <$> form pg.

(** The text last typed into field [i] in a series of entries. *)
Definition lastTyped (i : Input) (typed : list (Input * string)) : option string :=
  snd <$> last (filter (λ entry, fst entry = i) typed).

(** Edit, the entries of [typed], Confirm, and Edit again. *)
Definition reopened (product : Product) (typed : list (Input * string)) : Page :=
  domRun product
    (MainClicked :: (uncurry Typed <$> typed) ++ [MainClicked; MainClicked])
    (opened product).

(** The form is on the page in edit mode and only then, and every field
    holds what the last render left in it. *)
Definition page_inv (pg : Page) : Prop :=
  match form pg with
  | Some f => isEditing (state pg) = true ∧ afterRender (state pg) f = f
  | None => isEditing (state pg) = false
  end.

End ProductDetailDom.

(** ** Sample data for the worked examples *)

Module Samples.

Import ProductCard.

Definition named (id name : string) : Product :=
  <["name" := JStr name]> {[ "id" := JStr id ]}.

Definition tea : Product := named "a" "Matcha tea".
Definition mug : Product := named "b" "Enamel mug".
Definition pen : Product := named "c" "Fountain pen".

(** Records with numeric identifiers [from], [from + 1], ... *)
Definition numbered (from : Z) (count : nat) : list Product :=
  (λ n, {[ "id" := JNum n ]}) <$> seqZ from (Z.of_nat count).

(** A catalog entry that has a description. *)
Definition jug : Product :=
  <["desc" := JStr "Stoneware, 1 l"]> (named "d" "Water jug").

(** A record the backend sent without an [id]. *)
Definition nameless : Product := {[ "name" := JStr "Mystery box" ]}.
Definition nameless' : Product := {[ "name" := JStr "Second mystery box" ]}.

(** The list view after page 1 delivered [l] and "load more" was clicked. *)
Definition onPage2 (l : list Product) : ProductCard.State :=
  handleManualLoad (effect (Spec.validResponse l) initial).

(** A query result with neither data nor error: the query is loading. *)
Definition pending : QueryResult :=
  {| productData := NoProductData; error := false |}.

(** A query result carrying an error and no data. *)
Definition failed : QueryResult :=
  {| productData := NoProductData; error := true |}.

End Samples.

(** ** Facts about the JavaScript primitives *)

Section JsFacts.

Lemma strict_eq_true (a b : option JsVal) : strict_eq a b = true ↔ a = b.
Proof.
  destruct a as [[|x|x|x]|], b as [[|y|y|y]|]; simpl;
    try (split; [discriminate | intros; simplify_eq]); try done.
  - destruct x, y; simpl; (split; [done || discriminate | done || intros; simplify_eq]).
  - rewrite Z.eqb_eq. split; [by intros -> | by intros [= ->]].
  - rewrite String.eqb_eq. split; [by intros -> | by intros [= ->]].
Qed.

Lemma strict_eq_refl (a : option JsVal) : strict_eq a a = true.
Proof. by apply strict_eq_true. Qed.

Lemma undefined_is_falsy : truthy None = false.
Proof. reflexivity. Qed.

End JsFacts.

(** ** The merge step of the list view *)

Section Merge.

Import ProductCard Spec.

Implicit Types (data prev items : list Product) (s : ProductCard.State).

(** [prev.some(existing => existing.id === v)] decides membership of [v]
    among the identifiers of [prev]. *)
Lemma some_same_id prev (v : option JsVal) :
  existsb (fun existingProduct => strict_eq (id_of existingProduct) v) prev = true
  ↔ v ∈ ids prev.
Proof.
  unfold ids. induction prev as [|e prev IH]; simpl.
  - split; [discriminate | by intros ?%elem_of_nil].
  - rewrite orb_true_iff, IH, elem_of_cons, strict_eq_true.
    split; (intros [<-|?]; [by left | by right]).
Qed.

(** The filter of the source computes the subset the specification names. *)
Lemma newProducts_notAlreadyPresent data prev :
  newProducts data prev = notAlreadyPresent data prev.
Proof.
  unfold newProducts, notAlreadyPresent.
  induction data as [|q data IH]; [done|].
  simpl. rewrite filter_cons, IH.
  destruct (existsb _ prev) eqn:Hex; simpl.
  - apply some_same_id in Hex. by rewrite decide_False by naive_solver.
  - rewrite decide_True; [done|].
    intros Hin%some_same_id. congruence.
Qed.

Lemma effect_guard s r :
  lastLoadedPage s = page s → effect r s = productFetch s.
Proof.
  intros Heq. unfold effect. simpl.
  by rewrite (proj2 (Z.eqb_eq _ _) Heq).
Qed.

(** The effect on a valid array, past the guard. *)
Lemma effect_valid s items :
  lastLoadedPage s ≠ page s →
  effect (validResponse items) s =
    let upd := mergeUpdater (page s) items (allProducts s) in
    {| page := page s;
       hasMore := if snd upd then false else hasMore s;
       allProducts := fst upd;
       isLoadingMore := false;
       lastLoadedPage := page s;
       refetchCalls := S (refetchCalls s) |}.
Proof.
  intros Hne. unfold effect. simpl.
  rewrite (proj2 (Z.eqb_neq _ _) Hne). simpl.
  by destruct (snd (mergeUpdater _ _ _)).
Qed.

(** C1. The merge step's postcondition on the accumulated list: on the first
    page a valid response array replaces the list verbatim; on every later
    page the list becomes the old list followed by the response items whose
    identifier does not occur in the old list, in response order.  This is
    what the updater handed to [setAllProducts] returns, and what the effect
    leaves in the state when the page was not merged before. *)
Theorem merge_postcondition (p : Z) items prev :
  (p = 1 → fst (mergeUpdater p items prev) = items) ∧
  (1 < p →
     fst (mergeUpdater p items prev) = prev ++ notAlreadyPresent items prev) ∧
  (∀ s, page s = p → allProducts s = prev → lastLoadedPage s ≠ page s →
     allProducts (effect (validResponse items) s)
       = fst (mergeUpdater p items prev)).
Proof.
  unfold mergeUpdater. split; [|split].
  - by intros ->.
  - intros Hlt. rewrite (proj2 (Z.eqb_neq _ _)) by lia. simpl.
    by rewrite newProducts_notAlreadyPresent.
  - intros s <- <- Hne. by rewrite effect_valid.
Qed.

End Merge.

Section MergeExamples.

Import ProductCard Spec Samples.

Example onPage2_state :
  onPage2 [tea; mug] =
    {| page := 2; hasMore := true; allProducts := [tea; mug];
       isLoadingMore := true; lastLoadedPage := 1; refetchCalls := 1 |}.
Proof. reflexivity. Qed.

Example page2_merge :
  allProducts (effect (validResponse [mug; pen; tea]) (onPage2 [tea; mug]))
    = [tea; mug; pen].
Proof. vm_compute. reflexivity. Qed.

Lemma merge_postcondition_witness :
  1 < page (onPage2 [tea; mug]) ∧
  lastLoadedPage (onPage2 [tea; mug]) ≠ page (onPage2 [tea; mug]) ∧
  fst (mergeUpdater 2 [mug; pen] [tea; mug])
    = [tea; mug] ++ notAlreadyPresent [mug; pen] [tea; mug] ∧
  allProducts (effect (validResponse [mug; pen]) (onPage2 [tea; mug]))
    = fst (mergeUpdater 2 [mug; pen] [tea; mug]).
Proof.
  assert (Hlt : 1 < page (onPage2 [tea; mug])) by (simpl; lia).
  assert (Hne : lastLoadedPage (onPage2 [tea; mug]) ≠ page (onPage2 [tea; mug]))
    by (simpl; lia).
  split; [exact Hlt|]. split; [exact Hne|]. split.
  - exact (proj1 (proj2 (merge_postcondition 2 [mug; pen] [tea; mug])) Hlt).
  - exact (proj2 (proj2 (merge_postcondition 2 [mug; pen] [tea; mug]))
             (onPage2 [tea; mug]) eq_refl eq_refl Hne).
Defined.

End MergeExamples.

(** ** Identifiers in the accumulated list *)

Section UniqueIds.

Import ProductCard Spec Samples.

Implicit Types (data prev items : list Product) (s : ProductCard.State).

Lemma notAlreadyPresent_unique data prev :
  uniqueIds data → uniqueIds (notAlreadyPresent data prev).
Proof.
  unfold uniqueIds, ids, notAlreadyPresent. intros Hdata.
  eapply sublist_NoDup; [exact Hdata|].
  apply fmap_sublist, sublist_filter.
Qed.

Lemma notAlreadyPresent_disjoint data prev (v : option JsVal) :
  v ∈ ids prev → v ∉ ids (notAlreadyPresent data prev).
Proof.
  unfold notAlreadyPresent. intros Hprev Hfresh.
  apply list_elem_of_fmap in Hfresh as (q & -> & Hq).
  apply list_elem_of_filter in Hq as [Hnew _]. by apply Hnew.
Qed.

Lemma mergeUpdater_unique (p : Z) data prev :
  uniqueIds prev → uniqueIds data → uniqueIds (fst (mergeUpdater p data prev)).
Proof.
  intros Hprev Hdata. unfold mergeUpdater.
  destruct (p =? 1); simpl; [done|].
  rewrite newProducts_notAlreadyPresent.
  unfold uniqueIds, ids. rewrite fmap_app. apply NoDup_app.
  split; [done|]. split.
  - intros v. apply notAlreadyPresent_disjoint.
  - by apply notAlreadyPresent_unique.
Qed.

Lemma effect_unique r s :
  uniqueIds (data_of (productData r)) →
  uniqueIds (allProducts s) → uniqueIds (allProducts (effect r s)).
Proof.
  intros Hdata Hs. unfold effect. simpl.
  destruct (lastLoadedPage s =? page s); [done|].
  destruct (error r); [done|].
  destruct (hasDataArray (productData r)).
  - simpl. destruct (snd _); simpl; by apply mergeUpdater_unique.
  - simpl. destruct (page s =? 1); simpl; [constructor | done].
Qed.

Lemma step_unique s e :
  deliversUniqueIds e →
  uniqueIds (allProducts s) → uniqueIds (allProducts (step s e)).
Proof.
  destruct e as [r|]; simpl.
  - apply effect_unique.
  - intros _ Hs. unfold handleManualLoad.
    by destruct (isLoadingMore s || negb (hasMore s)).
Qed.

Lemma run_unique es s :
  Forall deliversUniqueIds es →
  uniqueIds (allProducts s) → uniqueIds (allProducts (run es s)).
Proof.
  intros Hes. revert s.
  induction Hes as [|e es He _ IH]; intros s Hs; [done|].
  simpl. apply IH. by apply step_unique.
Qed.

(** C2, as the code has it.  When every delivered array is itself free of
    repeated identifiers, no state of the run, from the empty list on, holds
    two entries with the same identifier. *)
Theorem accumulated_ids_unique (es : list Event) (n : nat) :
  Forall deliversUniqueIds es →
  uniqueIds (allProducts (run (take n es) initial)).
Proof.
  intros Hes. apply run_unique.
  - by apply Forall_take.
  - constructor.
Qed.

Lemma accumulated_ids_unique_witness :
  Forall deliversUniqueIds
    [Delivered (validResponse [tea; mug]); LoadMoreClicked;
     Delivered (validResponse [mug; pen])] ∧
  uniqueIds (allProducts
    (run (take 3 [Delivered (validResponse [tea; mug]); LoadMoreClicked;
                  Delivered (validResponse [mug; pen])]) initial)).
Proof.
  assert (Hes : Forall deliversUniqueIds
    [Delivered (validResponse [tea; mug]); LoadMoreClicked;
     Delivered (validResponse [mug; pen])]).
  { repeat constructor; simpl; unfold uniqueIds;
      apply (bool_decide_unpack _); vm_compute; reflexivity. }
  split; [exact Hes|].
  exact (accumulated_ids_unique _ 3 Hes).
Defined.

(** C2, as stated, fails: the first page is taken verbatim, so an array that
    repeats an identifier puts the repetition in the list. *)
Lemma first_page_keeps_repeated_id :
  ¬ (∀ es : list Event,
       Forall successful es → uniqueIds (allProducts (run es initial))).
Proof.
  intros Hall.
  specialize (Hall [Delivered (validResponse [tea; tea])]).
  assert (Hids : ids (allProducts
            (run [Delivered (validResponse [tea; tea])] initial))
          = [Some (JStr "a"); Some (JStr "a")]) by (vm_compute; reflexivity).
  unfold uniqueIds in Hall. rewrite Hids in Hall.
  assert (Hok : Forall successful [Delivered (validResponse [tea; tea])]).
  { repeat constructor. by exists [tea; tea]. }
  apply Hall in Hok. apply NoDup_cons in Hok as [Hin _].
  apply Hin. by left.
Qed.

(** The same happens on a later page: the filter compares a response item
    with the old list only, not with its neighbours in the response. *)
Example later_page_keeps_repeated_id :
  allProducts (effect (validResponse [mug; mug]) (onPage2 [tea]))
    = [tea; mug; mug].
Proof. vm_compute. reflexivity. Qed.

End UniqueIds.

(** ** The "has more" flag *)

Section HasMore.

Import ProductCard Spec Samples.

Implicit Types (items : list Product) (s : ProductCard.State).

(** Nothing in the component writes [true] to the flag. *)
Lemma hasMore_stays_false s e :
  hasMore s = false → hasMore (step s e) = false.
Proof.
  intros Hs. destruct e as [r|]; simpl.
  - unfold effect. simpl.
    destruct (lastLoadedPage s =? page s); [done|].
    destruct (error r); [done|].
    destruct (hasDataArray (productData r)); simpl; [|done].
    by destruct (snd _).
  - unfold handleManualLoad. rewrite Hs, orb_true_r. done.
Qed.

Lemma hasMore_stays_false_run es s :
  hasMore s = false → hasMore (run es s) = false.
Proof.
  revert s. induction es as [|e es IH]; intros s Hs; [done|].
  simpl. by apply IH, hasMore_stays_false.
Qed.

(** Past the first page a short array does end the pagination, for good. *)
Lemma short_later_page_ends s items es :
  page s ≠ 1 → lastLoadedPage s ≠ page s →
  Z.of_nat (length items) < pageSize →
  hasMore (run es (effect (validResponse items) s)) = false.
Proof.
  intros Hp Hne Hshort. apply hasMore_stays_false_run.
  rewrite effect_valid by done. simpl. unfold mergeUpdater.
  rewrite (proj2 (Z.eqb_neq _ _) Hp). simpl. unfold reachedEnd.
  by rewrite (proj2 (Z.ltb_lt _ _) Hshort).
Qed.

(** C3 at the first page.  The updater returns the response before it comes
    to the end-of-data test, so a first page shorter than the page size
    leaves the flag as it was. *)
Theorem short_first_page_keeps_hasMore :
  Z.of_nat (length [tea]) < pageSize ∧
  hasMore initial = true ∧
  hasMore (effect (validResponse [tea]) initial) = true.
Proof. repeat split; reflexivity. Qed.

(** The specification's worked example: eight items on page 1, then five on
    page 2 of which two are already there; further clicks do nothing. *)
Example eight_then_five :
  let s1 := effect (validResponse (numbered 1 8)) initial in
  let s2 := effect (validResponse (numbered 7 5)) (handleManualLoad s1) in
  (length (allProducts s1) = 8%nat ∧ hasMore s1 = true) ∧
  (length (allProducts s2) = 11%nat ∧ hasMore s2 = false) ∧
  handleManualLoad s2 = s2.
Proof. vm_compute. done. Qed.

(** The else branch: a result without an array, past the guard and
    without an error. *)
Lemma effect_without_array s r :
  lastLoadedPage s ≠ page s → error r = false →
  hasDataArray (productData r) = false →
  hasMore (effect r s) = false ∧
  isLoadingMore (effect r s) = false ∧
  allProducts (effect r s) = (if page s =? 1 then [] else allProducts s).
Proof.
  intros Hne Herr Hno. unfold effect. simpl.
  rewrite (proj2 (Z.eqb_neq _ _) Hne), Herr, Hno. simpl.
  by destruct (page s =? 1).
Qed.

(** An empty array on a later page: nothing new, so the flag goes down. *)
Lemma empty_later_page_ends s :
  page s ≠ 1 → lastLoadedPage s ≠ page s →
  hasMore (effect (validResponse []) s) = false ∧
  allProducts (effect (validResponse []) s) = allProducts s.
Proof.
  intros Hp Hne. rewrite effect_valid by done. simpl. unfold mergeUpdater.
  rewrite (proj2 (Z.eqb_neq _ _) Hp). simpl.
  by rewrite app_nil_r.
Qed.

(** C4 at an empty array on the first page.  [Array.isArray([])] holds, the
    merge branch runs, the list becomes empty and the updater returns before
    it writes the flag. *)
Theorem empty_first_page_keeps_hasMore :
  noData (productData (validResponse [])) ∧
  page initial = 1 ∧
  allProducts (effect (validResponse []) initial) = [] ∧
  hasMore (effect (validResponse []) initial) = true.
Proof.
  split; [|repeat split; reflexivity].
  unfold noData. simpl. by repeat right.
Qed.

End HasMore.

(** ** The guard, load more and errors *)

Section Triggers.

Import ProductCard Spec Samples.

Implicit Types (s : ProductCard.State) (r : QueryResult).

(** C5. When the marker equals the current page the effect does nothing but
    call [productFetch()]: list, flag, marker (and page and in-flight flag)
    are what they were, whatever the result delivered. *)
Theorem redelivery_is_skipped s r :
  lastLoadedPage s = page s →
  effect r s = productFetch s ∧
  allProducts (effect r s) = allProducts s ∧
  hasMore (effect r s) = hasMore s ∧
  lastLoadedPage (effect r s) = lastLoadedPage s ∧
  page (effect r s) = page s ∧
  isLoadingMore (effect r s) = isLoadingMore s.
Proof.
  intros Heq. rewrite (effect_guard s r Heq). done.
Qed.

Lemma redelivery_is_skipped_witness :
  let s := effect (validResponse [tea; mug]) initial in
  lastLoadedPage s = page s ∧
  allProducts (effect (validResponse [pen]) s) = allProducts s.
Proof.
  simpl.
  assert (Heq : lastLoadedPage (effect (validResponse [tea; mug]) initial)
                = page (effect (validResponse [tea; mug]) initial))
    by reflexivity.
  split; [exact Heq|].
  exact (proj1 (proj2 (redelivery_is_skipped _ (validResponse [pen]) Heq))).
Defined.

(** A merged page stays merged: delivering its array a second time changes
    nothing in the list. *)
Lemma merge_then_redelivery s items r :
  lastLoadedPage s ≠ page s →
  allProducts (effect r (effect (validResponse items) s))
    = allProducts (effect (validResponse items) s).
Proof.
  intros Hne. rewrite (effect_guard _ r); [done|].
  by rewrite effect_valid.
Qed.

(** C6. A click on "load more" while a load is in flight or while the flag
    is down leaves the state as it is; any other click raises the in-flight
    flag and moves the page number up by one, and nothing else. *)
Theorem load_more_click s :
  (isLoadingMore s = true ∨ hasMore s = false → handleManualLoad s = s) ∧
  (isLoadingMore s = false ∧ hasMore s = true →
     isLoadingMore (handleManualLoad s) = true ∧
     page (handleManualLoad s) = page s + 1 ∧
     hasMore (handleManualLoad s) = hasMore s ∧
     allProducts (handleManualLoad s) = allProducts s ∧
     lastLoadedPage (handleManualLoad s) = lastLoadedPage s).
Proof.
  unfold handleManualLoad. split.
  - intros [-> | ->]; [done|]. by rewrite orb_true_r.
  - intros [Hfl Hmore]. rewrite Hfl, Hmore. simpl. by rewrite Hmore.
Qed.

Lemma load_more_click_witness :
  handleManualLoad (onPage2 [tea]) = onPage2 [tea] ∧
  page (handleManualLoad initial) = page initial + 1.
Proof.
  split.
  - apply (proj1 (load_more_click (onPage2 [tea]))). left. reflexivity.
  - apply (proj2 (load_more_click initial)). split; reflexivity.
Defined.

Lemma reachable_marker_inv s : reachable s → marker_inv s.
Proof.
  induction 1 as [|s e _ [Hle Hflag]]; [split; simpl; [lia | done]|].
  destruct e as [r|]; simpl.
  - unfold effect. simpl.
    destruct (lastLoadedPage s =? page s) eqn:Hg; [by split|].
    destruct (error r); [split; simpl; [lia | done]|].
    destruct (hasDataArray (productData r)); simpl.
    + destruct (snd _); (split; simpl; [lia | done]).
    + destruct (page s =? 1); (split; simpl; [lia | done]).
  - unfold handleManualLoad.
    destruct (isLoadingMore s || negb (hasMore s)); [by split|].
    split; simpl; lia.
Qed.

Lemma effect_on_error s r :
  reachable s → error r = true →
  isLoadingMore (effect r s) = false ∧
  allProducts (effect r s) = allProducts s ∧
  hasMore (effect r s) = hasMore s ∧
  page (effect r s) = page s ∧
  lastLoadedPage (effect r s) = lastLoadedPage s.
Proof.
  intros [_ Hflag]%reachable_marker_inv Herr.
  unfold effect. simpl. rewrite Herr.
  destruct (lastLoadedPage s =? page s) eqn:Hg; [|done].
  apply Z.eqb_eq in Hg. simpl. by rewrite (Hflag Hg).
Qed.

(** C7, as the code has it.  In every state the list view can be in, an
    effect that finds an error clears the in-flight flag and writes nothing
    else, so the page number asked for stays the same.  A click on "load
    more" after it does not ask for that page again: with "has more" up it
    moves on to the next page number, and with "has more" down it does
    nothing. *)
Theorem error_clears_in_flight_and_click_moves_on s r :
  reachable s → error r = true →
  (isLoadingMore (effect r s) = false ∧
   allProducts (effect r s) = allProducts s ∧
   hasMore (effect r s) = hasMore s ∧
   page (effect r s) = page s ∧
   lastLoadedPage (effect r s) = lastLoadedPage s) ∧
  (hasMore s = true →
     page (handleManualLoad (effect r s)) = page s + 1 ∧
     isLoadingMore (handleManualLoad (effect r s)) = true) ∧
  (hasMore s = false → handleManualLoad (effect r s) = effect r s).
Proof.
  intros Hs Herr.
  pose proof (effect_on_error s r Hs Herr) as Hframe.
  split; [exact Hframe|].
  destruct Hframe as (Hfl & _ & Hm & Hp & _).
  unfold handleManualLoad. rewrite Hfl, Hm. split.
  - intros ->. simpl. by rewrite Hp.
  - by intros ->.
Qed.

Lemma error_clears_in_flight_and_click_moves_on_witness :
  reachable (onPage2 [tea]) ∧ error failed = true ∧
  hasMore (onPage2 [tea]) = true ∧
  isLoadingMore (onPage2 [tea]) = true ∧
  isLoadingMore (effect failed (onPage2 [tea])) = false ∧
  page (handleManualLoad (effect failed (onPage2 [tea]))) = page (onPage2 [tea]) + 1.
Proof.
  assert (Hr : reachable (onPage2 [tea])).
  { apply (reach_step _ LoadMoreClicked).
    apply (reach_step _ (Delivered (validResponse [tea]))).
    apply reach_init. }
  split; [exact Hr|]. split; [reflexivity|]. split; [reflexivity|].
  split; [reflexivity|]. split.
  - exact (proj1 (proj1
             (error_clears_in_flight_and_click_moves_on _ failed Hr eq_refl))).
  - exact (proj1 (proj1 (proj2
             (error_clears_in_flight_and_click_moves_on _ failed Hr eq_refl))
             eq_refl)).
Defined.

(** C7, as stated, fails in its consequence: after an error on page 1 the
    retry by "load more" asks for page 2, not for page 1 again. *)
Lemma retry_by_load_more_skips_the_page :
  ¬ (∀ s r, reachable s → error r = true →
       (isLoadingMore (effect r s) = false ∧
        allProducts (effect r s) = allProducts s ∧
        hasMore (effect r s) = hasMore s ∧
        page (effect r s) = page s ∧
        lastLoadedPage (effect r s) = lastLoadedPage s) ∧
       page (handleManualLoad (effect r s)) = page s).
Proof.
  intros Hall.
  destruct (Hall initial failed reach_init eq_refl) as [_ Hsame].
  vm_compute in Hsame. discriminate.
Qed.

Example error_on_page_1_then_click :
  effect failed initial =
    {| page := 1; hasMore := true; allProducts := [];
       isLoadingMore := false; lastLoadedPage := 0; refetchCalls := 1 |} ∧
  page (handleManualLoad (effect failed initial)) = 2.
Proof. split; reflexivity. Qed.

(** The error branch as such, in any record of the state type whose marker
    differs from the page. *)
Lemma error_branch s r :
  lastLoadedPage s ≠ page s → error r = true →
  effect r s = setIsLoadingMore false (productFetch s).
Proof.
  intros Hne Herr. unfold effect. simpl.
  by rewrite (proj2 (Z.eqb_neq _ _) Hne), Herr.
Qed.

(** After an error the page number is what it was, so the query is asked for
    the same page again; a further click on "load more" moves on to the next
    page. *)
Lemma load_more_after_error s r :
  lastLoadedPage s ≠ page s → error r = true → hasMore s = true →
  page (effect r s) = page s ∧
  page (handleManualLoad (effect r s)) = page s + 1.
Proof.
  intros Hne Herr Hmore. rewrite error_branch by done.
  unfold handleManualLoad. simpl. by rewrite Hmore.
Qed.

End Triggers.

(** ** Records without an identifier *)

Section Nameless.

Import ProductCard Spec Samples.

Implicit Types (items : list Product) (s : ProductCard.State).

Lemma renderCard_without_id (e : Product) :
  id_of e = None → renderCard e = None.
Proof. unfold renderCard. by intros ->. Qed.

Lemma renderGrid_lookup s (i : nat) :
  renderGrid s !! i = renderCard <$> allProducts s !! i.
Proof. unfold renderGrid. apply list_lookup_fmap. Qed.

(** C10. On a page past the first, identifiers are compared as they are, so
    two missing identifiers are equal.  Once the list holds a record without
    an identifier, the merge appends no record without one; the records
    already in the list stay where they are, and the grid shows nothing for
    those without an identifier. *)
Theorem records_without_id s items :
  1 < page s → lastLoadedPage s ≠ page s →
  (∃ e, e ∈ allProducts s ∧ id_of e = None) →
  (∀ a b : Product,
     id_of a = None → id_of b = None → strict_eq (id_of a) (id_of b) = true) ∧
  allProducts (effect (validResponse items) s)
    = allProducts s ++ newProducts items (allProducts s) ∧
  Forall (λ q, id_of q ≠ None) (newProducts items (allProducts s)) ∧
  (∀ (i : nat) (e : Product),
     allProducts (effect (validResponse items) s) !! i = Some e →
     id_of e = None →
     renderGrid (effect (validResponse items) s) !! i = Some None).
Proof.
  intros Hp Hne (e & He & Hid). split; [|split; [|split]].
  - intros a b -> ->. done.
  - rewrite effect_valid by done. simpl. unfold mergeUpdater.
    by rewrite (proj2 (Z.eqb_neq _ _)) by lia.
  - rewrite newProducts_notAlreadyPresent. apply Forall_forall.
    intros q Hq Hnone. unfold notAlreadyPresent in Hq.
    apply list_elem_of_filter in Hq as [Hfresh _]. apply Hfresh.
    rewrite Hnone, <- Hid. by apply list_elem_of_fmap_2.
  - intros i q Hq Hnone.
    by rewrite renderGrid_lookup, Hq, <- (renderCard_without_id q Hnone).
Qed.

Lemma records_without_id_witness :
  1 < page (onPage2 [tea; nameless]) ∧
  lastLoadedPage (onPage2 [tea; nameless]) ≠ page (onPage2 [tea; nameless]) ∧
  (∃ e, e ∈ allProducts (onPage2 [tea; nameless]) ∧ id_of e = None) ∧
  Forall (λ q, id_of q ≠ None)
    (newProducts [nameless'; pen] (allProducts (onPage2 [tea; nameless]))).
Proof.
  assert (Hp : 1 < page (onPage2 [tea; nameless])) by (simpl; lia).
  assert (Hne : lastLoadedPage (onPage2 [tea; nameless])
                ≠ page (onPage2 [tea; nameless])) by (simpl; lia).
  assert (He : ∃ e, e ∈ allProducts (onPage2 [tea; nameless]) ∧ id_of e = None).
  { exists nameless. split; [|reflexivity]. simpl. right. left. }
  split; [exact Hp|]. split; [exact Hne|]. split; [exact He|].
  exact (proj1 (proj2 (proj2
           (records_without_id _ [nameless'; pen] Hp Hne He)))).
Defined.

Example nameless_page2 :
  allProducts (effect (validResponse [nameless'; pen]) (onPage2 [tea; nameless]))
    = [tea; nameless; pen] ∧
  renderGrid (effect (validResponse [nameless'; pen]) (onPage2 [tea; nameless]))
    = [Some (JStr "a"); None; Some (JStr "c")].
Proof. split; vm_compute; reflexivity. Qed.

End Nameless.

(** ** The detail page *)

Section Detail.

Import ProductDetailPage Samples.

Implicit Types (product : Product) (s : ProductDetailPage.State).

Lemma run_app product (es es' : list Event) s :
  run product (es ++ es') s = run product es' (run product es s).
Proof. apply foldl_app. Qed.

Lemma mount_found (products : list Product) (id : string) product s0 :
  mount products id = Some (product, s0) →
  findProduct products id = Some product ∧ s0 = initial product.
Proof.
  unfold mount. destruct (findProduct products id); [|done].
  by intros [= -> <-].
Qed.

(** C8. For a product that was found, whatever fields were changed in edit
    mode, the cancel button switches edit mode off and puts the source
    product back as the working copy: every field reads as in the source. *)
Theorem cancel_restores_original
    (products : list Product) (id : string) product s0
    (changes : list (string * string)) :
  mount products id = Some (product, s0) →
  isEditing
    (run product (EditClicked :: (uncurry Changed <$> changes) ++ [CancelClicked]) s0)
    = false ∧
  editedProduct
    (run product (EditClicked :: (uncurry Changed <$> changes) ++ [CancelClicked]) s0)
    = product ∧
  ∀ field : string,
    editedProduct
      (run product (EditClicked :: (uncurry Changed <$> changes) ++ [CancelClicked]) s0)
      !! field = product !! field.
Proof.
  intros [_ ->]%mount_found.
  change (EditClicked :: (uncurry Changed <$> changes) ++ [CancelClicked])
    with ((EditClicked :: (uncurry Changed <$> changes)) ++ [CancelClicked]).
  rewrite run_app. done.
Qed.

Lemma cancel_restores_original_witness :
  mount [tea; mug] "b" = Some (mug, initial mug) ∧
  editedProduct
    (run mug (EditClicked :: (uncurry Changed <$> [("name", "Cup")]) ++ [CancelClicked])
         (initial mug))
    = mug.
Proof.
  assert (Hm : mount [tea; mug] "b" = Some (mug, initial mug))
    by (vm_compute; reflexivity).
  split; [exact Hm|].
  exact (proj1 (proj2
           (cancel_restores_original [tea; mug] "b" mug (initial mug)
              [("name", "Cup")] Hm))).
Defined.

(** The change is there before the cancel. *)
Example edit_is_visible_before_cancel :
  render mug (run mug [EditClicked; Changed "name" "Cup"] (initial mug))
    = {| shownName := Some (JStr "Cup"); shownDesc := None; shownCategory := None |} ∧
  render mug (run mug [EditClicked; Changed "name" "Cup"; CancelClicked; EditClicked]
                (initial mug))
    = {| shownName := Some (JStr "Enamel mug"); shownDesc := None; shownCategory := None |}.
Proof. split; vm_compute; reflexivity. Qed.

(** A change writes the named field and no other. *)
Lemma handleChange_lookup (name value field : string) s :
  editedProduct (handleChange name value s) !! field
    = if decide (name = field) then Some (JStr value) else editedProduct s !! field.
Proof. unfold handleChange. simpl. apply lookup_insert. Qed.

(** The confirm button writes the edit-mode flag only, and so does the edit
    button. *)
Lemma confirm_then_edit_frame product s :
  isEditing (handleConfirm s) = false ∧
  editedProduct (handleConfirm s) = editedProduct s ∧
  isEditing (handleEdit (handleConfirm s)) = true ∧
  editedProduct (handleEdit (handleConfirm s)) = editedProduct s ∧
  render product (handleEdit (handleConfirm s))
    = {| shownName := editedProduct s !! "name";
         shownDesc := editedProduct s !! "desc";
         shownCategory := editedProduct s !! "category" |}.
Proof. repeat split. Qed.

Example confirmed_edit_is_shown_again :
  render mug (run mug [EditClicked; Changed "name" "Cup"; ConfirmClicked; EditClicked]
                (initial mug))
    = {| shownName := Some (JStr "Cup"); shownDesc := None; shownCategory := None |} ∧
  mug !! "name" = Some (JStr "Enamel mug").
Proof. split; vm_compute; reflexivity. Qed.

End Detail.

(** ** Runs of the list view *)

Section Runs.

Import ProductCard Spec ProductCardView Samples.

Implicit Types (items : list Product) (s : ProductCard.State)
  (r : QueryResult) (e : ProductCard.Event) (es : list ProductCard.Event).

Lemma run_append es es' s : run (es ++ es') s = run es' (run es s).
Proof. apply foldl_app. Qed.

Lemma reachable_run es s : reachable s → reachable (run es s).
Proof.
  revert s. induction es as [|e es IH]; intros s Hs; [done|].
  simpl. apply IH. by constructor.
Qed.

(** The effect, branch by branch. *)
Lemma effect_cases r s :
  (lastLoadedPage s = page s ∧ effect r s = productFetch s) ∨
  (lastLoadedPage s ≠ page s ∧ error r = true ∧
     effect r s = setIsLoadingMore false (productFetch s)) ∨
  (merges r s = true ∧
     effect r s =
       {| page := page s;
          hasMore := if snd (mergeUpdater (page s) (data_of (productData r))
                                (allProducts s))
                     then false else hasMore s;
          allProducts := fst (mergeUpdater (page s) (data_of (productData r))
                                (allProducts s));
          isLoadingMore := false;
          lastLoadedPage := page s;
          refetchCalls := S (refetchCalls s) |}) ∨
  (lastLoadedPage s ≠ page s ∧ error r = false ∧
     hasDataArray (productData r) = false ∧
     effect r s =
       {| page := page s;
          hasMore := false;
          allProducts := if page s =? 1 then [] else allProducts s;
          isLoadingMore := false;
          lastLoadedPage := lastLoadedPage s;
          refetchCalls := S (refetchCalls s) |}).
Proof.
  unfold effect, merges. simpl.
  destruct (lastLoadedPage s =? page s) eqn:Hg.
  { left. by apply Z.eqb_eq in Hg. }
  apply Z.eqb_neq in Hg. right.
  destruct (error r); [by left|]. right.
  destruct (hasDataArray (productData r)); simpl.
  - left. split; [done|]. by destruct (snd _).
  - right. repeat split; try done. by destruct (page s =? 1).
Qed.

Lemma handleManualLoad_cases s :
  (isLoadingMore s || negb (hasMore s) = true ∧ handleManualLoad s = s) ∨
  (isLoadingMore s = false ∧ hasMore s = true ∧
     handleManualLoad s =
       {| page := page s + 1; hasMore := true; allProducts := allProducts s;
          isLoadingMore := true; lastLoadedPage := lastLoadedPage s;
          refetchCalls := refetchCalls s |}).
Proof.
  unfold handleManualLoad.
  destruct (isLoadingMore s) eqn:Hl, (hasMore s) eqn:Hm; simpl; auto.
  right. unfold setPage, setIsLoadingMore. simpl. by rewrite Hm.
Qed.

Lemma step_state_inv s e : state_inv s → state_inv (step s e).
Proof.
  intros (Hp & Hm & Hfl & Hl). destruct e as [r|]; simpl.
  - destruct (effect_cases r s)
      as [[Hg ->]|[(Hg & _ & ->)|[(Hmg & ->)|(Hg & _ & _ & ->)]]];
      unfold state_inv; simpl.
    + done.
    + repeat split; try lia; done.
    + repeat split; try lia; done.
    + repeat split; try lia; try done. intros H0.
      destruct (page s =? 1) eqn:H1; [done | by apply Hl].
  - destruct (handleManualLoad_cases s) as [[_ ->]|(Hfalse & Hmore & ->)];
      [done|].
    unfold state_inv. simpl. repeat split; try lia; done.
Qed.

Lemma reachable_holds_state_inv s : reachable s → state_inv s.
Proof.
  induction 1 as [|s e _ IH]; [|by apply step_state_inv].
  unfold state_inv. simpl. repeat split; try lia; done.
Qed.

Lemma state_inv_run es : state_inv (run es initial).
Proof. apply reachable_holds_state_inv, reachable_run, reach_init. Qed.

(** X2. After every run from the mount state the page number is at least 1,
    the marker lies between 0 and the page, a load is in flight only while
    "has more" is up and the current page is not marked, and the list is
    empty as long as nothing was merged. *)
Theorem state_inv_always es :
  1 ≤ page (run es initial) ∧
  0 ≤ lastLoadedPage (run es initial) ≤ page (run es initial) ∧
  (isLoadingMore (run es initial) = true →
     hasMore (run es initial) = true ∧
     lastLoadedPage (run es initial) < page (run es initial)) ∧
  (lastLoadedPage (run es initial) = 0 → allProducts (run es initial) = []).
Proof. exact (state_inv_run es). Qed.

Lemma state_inv_always_witness :
  isLoadingMore (run [Delivered (validResponse [tea]); LoadMoreClicked] initial) = true ∧
  hasMore (run [Delivered (validResponse [tea]); LoadMoreClicked] initial) = true.
Proof.
  split; [reflexivity|].
  exact (proj1 (proj1 (proj2 (proj2
           (state_inv_always [Delivered (validResponse [tea]); LoadMoreClicked])))
           eq_refl)).
Defined.

(** X1. No event writes [true] to "has more": if the flag is up at the end
    of a run, it was up at its start and after every prefix of the run. *)
Theorem hasMore_never_raised es (n : nat) s :
  hasMore (run es s) = true → hasMore (run (take n es) s) = true.
Proof.
  intros Hend. destruct (hasMore (run (take n es) s)) eqn:Hmid; [done|].
  rewrite <- (take_drop n es), run_append in Hend.
  by rewrite (hasMore_stays_false_run (drop n es) _ Hmid) in Hend.
Qed.

Lemma hasMore_never_raised_witness :
  hasMore (run [Delivered (validResponse [tea]); LoadMoreClicked] initial) = true ∧
  hasMore (run (take 1 [Delivered (validResponse [tea]); LoadMoreClicked]) initial)
    = true.
Proof.
  assert (H : hasMore (run [Delivered (validResponse [tea]); LoadMoreClicked] initial)
              = true) by reflexivity.
  split; [exact H|].
  exact (hasMore_never_raised _ 1 initial H).
Defined.

Lemma step_prefix s e :
  state_inv s → allProducts s `prefix_of` allProducts (step s e).
Proof.
  intros (Hp & Hm & _ & Hl). destruct e as [r|]; simpl.
  - destruct (effect_cases r s)
      as [[Hg ->]|[(Hg & _ & ->)|[(Hmg & ->)|(Hg & _ & _ & ->)]]]; simpl;
      try done.
    + unfold merges in Hmg. apply andb_true_iff in Hmg as [Hmg _].
      apply andb_true_iff in Hmg as [Hg%negb_true_iff%Z.eqb_neq _].
      unfold mergeUpdater. destruct (page s =? 1) eqn:H1; simpl.
      * apply Z.eqb_eq in H1. rewrite Hl by lia. apply prefix_nil.
      * by apply prefix_app_r.
    + destruct (page s =? 1) eqn:H1; [|done].
      apply Z.eqb_eq in H1. rewrite Hl by lia. done.
  - by destruct (handleManualLoad_cases s) as [[_ ->]|(_ & _ & ->)].
Qed.

(** X3. The list only ever grows at its end: whatever happens after a
    reachable state, the list it holds stays a prefix of the later list.  The
    replacement on page 1 and the reset of the else branch fire on an empty
    list only. *)
Theorem list_is_append_only es s :
  reachable s → allProducts s `prefix_of` allProducts (run es s).
Proof.
  revert s. induction es as [|e es IH]; intros s Hs; [done|].
  simpl. etrans; [|apply IH; by constructor].
  by apply step_prefix, reachable_holds_state_inv.
Qed.

Lemma list_is_append_only_witness :
  reachable (onPage2 [tea; mug]) ∧
  allProducts (onPage2 [tea; mug])
    `prefix_of` allProducts (run [Delivered pending; Delivered (validResponse [pen])]
                               (onPage2 [tea; mug])).
Proof.
  assert (Hr : reachable (onPage2 [tea; mug])).
  { apply (reach_step _ LoadMoreClicked).
    apply (reach_step _ (Delivered (validResponse [tea; mug]))).
    apply reach_init. }
  split; [exact Hr | exact (list_is_append_only _ _ Hr)].
Defined.

End Runs.

(** ** Pages, merges and the fetch counter *)

Section Pages.

Import ProductCard Spec ProductCardView Samples.

Implicit Types (items prev : list Product) (s : ProductCard.State)
  (r : QueryResult) (e : ProductCard.Event) (es : list ProductCard.Event).

Lemma merges_true r s :
  merges r s = true →
  lastLoadedPage s ≠ page s ∧ error r = false ∧
  hasDataArray (productData r) = true.
Proof.
  unfold merges. intros [[Hg He]%andb_true_iff Hd]%andb_true_iff.
  apply negb_true_iff in Hg, He. by apply Z.eqb_neq in Hg.
Qed.

Lemma effect_merges r s :
  merges r s = true →
  effect r s =
    {| page := page s;
       hasMore := if snd (mergeUpdater (page s) (data_of (productData r))
                             (allProducts s))
                  then false else hasMore s;
       allProducts := fst (mergeUpdater (page s) (data_of (productData r))
                             (allProducts s));
       isLoadingMore := false;
       lastLoadedPage := page s;
       refetchCalls := S (refetchCalls s) |}.
Proof.
  intros (Hg & He & Hd)%merges_true.
  destruct (effect_cases r s)
    as [[Hg' _]|[(_ & He' & _)|[(_ & ->)|(_ & _ & Hd' & _)]]];
    congruence.
Qed.

Lemma step_monotone s e :
  state_inv s →
  page s ≤ page (step s e) ∧ lastLoadedPage s ≤ lastLoadedPage (step s e).
Proof.
  intros (Hp & Hm & _ & _). destruct e as [r|]; simpl.
  - destruct (effect_cases r s)
      as [[Hg ->]|[(Hg & _ & ->)|[(Hmg & ->)|(Hg & _ & _ & ->)]]]; simpl; lia.
  - destruct (handleManualLoad_cases s) as [[_ ->]|(_ & _ & ->)]; simpl; lia.
Qed.

Lemma run_monotone es s :
  reachable s →
  page s ≤ page (run es s) ∧ lastLoadedPage s ≤ lastLoadedPage (run es s).
Proof.
  revert s. induction es as [|e es IH]; intros s Hs; [simpl; lia|].
  simpl. destruct (IH (step s e)) as [? ?]; [by constructor|].
  destruct (step_monotone s e); [by apply reachable_holds_state_inv|]. lia.
Qed.

(** X4. A page number is merged at most once: after the effect merged a
    response on some page, any later merge happens on a higher page. *)
Theorem page_merged_once r r' es s :
  reachable s → merges r s = true →
  merges r' (run es (effect r s)) = true →
  page s < page (run es (effect r s)).
Proof.
  intros Hs Hm Hm'.
  assert (Hs1 : reachable (effect r s)) by apply (reach_step s (Delivered r) Hs).
  destruct (run_monotone es _ Hs1) as [_ Hmark].
  rewrite (effect_merges r s Hm) in Hmark at 1. simpl in Hmark.
  destruct (reachable_holds_state_inv _ (reachable_run es _ Hs1))
    as (_ & Hle & _ & _).
  apply merges_true in Hm' as (Hne & _ & _). lia.
Qed.

Lemma page_merged_once_witness :
  reachable initial ∧
  merges (validResponse [tea]) initial = true ∧
  merges (validResponse [pen])
    (run [LoadMoreClicked] (effect (validResponse [tea]) initial)) = true ∧
  page initial < page (run [LoadMoreClicked] (effect (validResponse [tea]) initial)).
Proof.
  split; [exact reach_init|]. split; [reflexivity|]. split; [reflexivity|].
  exact (page_merged_once (validResponse [tea]) (validResponse [pen])
           [LoadMoreClicked] initial reach_init eq_refl eq_refl).
Defined.

Lemma newProducts_subset items prev (q : Product) :
  q ∈ newProducts items prev → q ∈ items.
Proof.
  rewrite newProducts_notAlreadyPresent. unfold notAlreadyPresent.
  by intros [_ ?]%list_elem_of_filter.
Qed.

Lemma step_provenance s e (p : Product) :
  p ∈ allProducts (step s e) →
  p ∈ allProducts s ∨ ∃ r, e = Delivered r ∧ p ∈ data_of (productData r).
Proof.
  destruct e as [r|]; simpl.
  - destruct (effect_cases r s)
      as [[Hg ->]|[(Hg & _ & ->)|[(Hmg & ->)|(Hg & _ & _ & ->)]]]; simpl;
      try by left.
    + unfold mergeUpdater. destruct (page s =? 1); simpl.
      * intros Hin. right. by exists r.
      * intros [Hin|Hin%newProducts_subset]%elem_of_app; [by left|].
        right. by exists r.
    + destruct (page s =? 1); [by intros ?%elem_of_nil | by left].
  - destruct (handleManualLoad_cases s) as [[_ ->]|(_ & _ & ->)]; by left.
Qed.

(** X5. The list never holds a product the query did not deliver: every
    entry after a run comes from the array of some result the effect ran on
    during that run. *)
Theorem list_items_were_delivered es (p : Product) :
  p ∈ allProducts (run es initial) →
  ∃ r, Delivered r ∈ es ∧ p ∈ data_of (productData r).
Proof.
  induction es as [|e es IH] using rev_ind.
  - by intros ?%elem_of_nil.
  - rewrite run_append. simpl.
    intros [Hold|(r & -> & Hr)]%step_provenance.
    + destruct (IH Hold) as (r & Hin & Hr). exists r.
      split; [|done]. apply elem_of_app. by left.
    + exists r. split; [|done]. apply elem_of_app. right. by left.
Qed.

Lemma list_items_were_delivered_witness :
  pen ∈ allProducts (run [Delivered (validResponse [tea]); LoadMoreClicked;
                          Delivered (validResponse [tea; pen])] initial) ∧
  ∃ r, Delivered r ∈ [Delivered (validResponse [tea]); LoadMoreClicked;
                      Delivered (validResponse [tea; pen])] ∧
       pen ∈ data_of (productData r).
Proof.
  assert (Hin : pen ∈ allProducts
            (run [Delivered (validResponse [tea]); LoadMoreClicked;
                  Delivered (validResponse [tea; pen])] initial)).
  { vm_compute. right. left. }
  split; [exact Hin|].
  exact (list_items_were_delivered _ pen Hin).
Defined.

Lemma mergeUpdater_ids_present (p : Z) items prev (q : Product) :
  q ∈ items → id_of q ∈ ids (fst (mergeUpdater p items prev)).
Proof.
  intros Hq. unfold mergeUpdater, ids.
  destruct (p =? 1); simpl; [by apply list_elem_of_fmap_2|].
  rewrite fmap_app, elem_of_app, newProducts_notAlreadyPresent.
  destruct (decide (id_of q ∈ ids prev)) as [Hin|Hout]; [by left|].
  right. apply list_elem_of_fmap_2. unfold notAlreadyPresent.
  by apply list_elem_of_filter.
Qed.

(** X6. After the effect merged an array, the identifier of each of its
    items is in the list, on the first page and on later ones. *)
Theorem merged_ids_are_present r s (q : Product) :
  merges r s = true → q ∈ data_of (productData r) →
  id_of q ∈ ids (allProducts (effect r s)).
Proof.
  intros Hm Hq. rewrite (effect_merges r s Hm). simpl.
  by apply mergeUpdater_ids_present.
Qed.

Lemma merged_ids_are_present_witness :
  merges (validResponse [mug; pen]) (onPage2 [tea; mug]) = true ∧
  pen ∈ data_of (productData (validResponse [mug; pen])) ∧
  id_of pen ∈ ids (allProducts (effect (validResponse [mug; pen]) (onPage2 [tea; mug]))).
Proof.
  assert (Hq : pen ∈ data_of (productData (validResponse [mug; pen])))
    by (simpl; right; left).
  split; [reflexivity|]. split; [exact Hq|].
  exact (merged_ids_are_present (validResponse [mug; pen]) (onPage2 [tea; mug])
           pen eq_refl Hq).
Defined.

End Pages.

(** ** How pagination ends *)

Section Ending.

Import ProductCard Spec ProductCardView Samples.

Implicit Types (items prev : list Product) (s : ProductCard.State)
  (r : QueryResult) (e : ProductCard.Event) (es : list ProductCard.Event).

Lemma newProducts_none items prev :
  (∀ q : Product, q ∈ items → id_of q ∈ ids prev) → newProducts items prev = [].
Proof.
  intros Hall. rewrite newProducts_notAlreadyPresent. unfold notAlreadyPresent.
  induction items as [|q items IH]; [done|].
  rewrite filter_cons, decide_False.
  - apply IH. intros q' Hq'. apply Hall. by right.
  - intros Hout. apply Hout, Hall. by left.
Qed.

Lemma effect_known_ids s items :
  page s ≠ 1 → lastLoadedPage s ≠ page s →
  (∀ q : Product, q ∈ items → id_of q ∈ ids (allProducts s)) →
  allProducts (effect (validResponse items) s) = allProducts s ∧
  hasMore (effect (validResponse items) s) = false.
Proof.
  intros Hp Hne Hall. rewrite effect_valid by done. simpl.
  unfold mergeUpdater. rewrite (proj2 (Z.eqb_neq _ _) Hp). simpl.
  rewrite (newProducts_none _ _ Hall), app_nil_r. simpl.
  unfold reachedEnd. simpl. by rewrite orb_true_r.
Qed.

(** X7. A response that is delivered again for the next page ends the
    pagination: when the array just merged comes once more after the click
    on "load more", nothing is added, the new page is marked as loaded and
    "has more" goes down. *)
Theorem stale_array_ends_pagination es items :
  lastLoadedPage (run es initial) ≠ page (run es initial) →
  hasMore (effect (validResponse items) (run es initial)) = true →
  allProducts (effect (validResponse items)
                 (handleManualLoad (effect (validResponse items) (run es initial))))
    = allProducts (effect (validResponse items) (run es initial)) ∧
  hasMore (effect (validResponse items)
             (handleManualLoad (effect (validResponse items) (run es initial))))
    = false ∧
  lastLoadedPage (effect (validResponse items)
             (handleManualLoad (effect (validResponse items) (run es initial))))
    = page (run es initial) + 1.
Proof.
  set (s := run es initial). intros Hne Hmore.
  destruct (state_inv_run es) as (Hp & _ & _ & _). fold s in Hp.
  set (s1 := effect (validResponse items) s) in *.
  assert (Hs1 : page s1 = page s ∧ lastLoadedPage s1 = page s ∧
                isLoadingMore s1 = false ∧
                allProducts s1 = fst (mergeUpdater (page s) items (allProducts s))).
  { unfold s1. by rewrite effect_valid. }
  destruct Hs1 as (Hp1 & Hm1 & Hfl1 & Hl1).
  destruct (handleManualLoad_cases s1) as [[Hblocked _]|(_ & _ & Hclick)].
  { by rewrite Hfl1, Hmore in Hblocked. }
  set (s2 := handleManualLoad s1) in *.
  assert (Hs2 : page s2 = page s + 1 ∧ lastLoadedPage s2 = page s ∧
                allProducts s2 = allProducts s1).
  { rewrite Hclick. simpl. by rewrite Hp1, Hm1. }
  destruct Hs2 as (Hp2 & Hm2 & Hl2).
  destruct (effect_known_ids s2 items) as [Hsame Hend].
  - lia.
  - lia.
  - intros q Hq. rewrite Hl2, Hl1. by apply mergeUpdater_ids_present.
  - split; [by rewrite Hsame|]. split; [done|].
    rewrite effect_valid by lia. simpl. done.
Qed.

Lemma stale_array_ends_pagination_witness :
  lastLoadedPage (run [] initial) ≠ page (run [] initial) ∧
  hasMore (effect (validResponse (numbered 1 8)) (run [] initial)) = true ∧
  hasMore (effect (validResponse (numbered 1 8))
             (handleManualLoad (effect (validResponse (numbered 1 8)) (run [] initial))))
    = false.
Proof.
  assert (Hne : lastLoadedPage (run [] initial) ≠ page (run [] initial))
    by (simpl; lia).
  assert (Hm : hasMore (effect (validResponse (numbered 1 8)) (run [] initial)) = true)
    by reflexivity.
  split; [exact Hne|]. split; [exact Hm|].
  exact (proj1 (proj2 (stale_array_ends_pagination [] (numbered 1 8) Hne Hm))).
Defined.

Lemma page_frozen es s : hasMore s = false → page (run es s) = page s.
Proof.
  revert s. induction es as [|e es IH]; intros s Hs; [done|].
  simpl. rewrite IH by by apply hasMore_stays_false.
  destruct e as [r|]; simpl.
  - by destruct (effect_cases r s)
      as [[_ ->]|[(_ & _ & ->)|[(_ & ->)|(_ & _ & _ & ->)]]].
  - unfold handleManualLoad. by rewrite Hs, orb_true_r.
Qed.

(** X8. The else branch does not mark the page: after a result without an
    array (as while the page is still loading), an array that comes later
    for the same page is merged all the same.  But "has more" is down by
    then, so the page number never changes again. *)
Theorem data_after_no_data s r items es :
  lastLoadedPage s ≠ page s → error r = false →
  hasDataArray (productData r) = false →
  allProducts (effect (validResponse items) (effect r s))
    = fst (mergeUpdater (page s) items
             (if page s =? 1 then [] else allProducts s)) ∧
  hasMore (effect (validResponse items) (effect r s)) = false ∧
  page (run es (effect (validResponse items) (effect r s))) = page s.
Proof.
  intros Hne Herr Hno.
  destruct (effect_cases r s)
    as [[Hg _]|[(_ & He & _)|[(Hm & _)|(_ & _ & _ & Heq)]]]; try congruence.
  { apply merges_true in Hm. destruct Hm as (_ & _ & Hd). congruence. }
  assert (Hvalid : effect (validResponse items) (effect r s) =
    {| page := page s;
       hasMore := false;
       allProducts := fst (mergeUpdater (page s) items
                             (if page s =? 1 then [] else allProducts s));
       isLoadingMore := false;
       lastLoadedPage := page s;
       refetchCalls := S (S (refetchCalls s)) |}).
  { rewrite effect_valid by (rewrite Heq; simpl; done).
    rewrite Heq. simpl. by destruct (snd _). }
  rewrite Hvalid. simpl. split; [done|]. split; [done|].
  by rewrite page_frozen.
Qed.

Lemma data_after_no_data_witness :
  lastLoadedPage (onPage2 (numbered 1 8)) ≠ page (onPage2 (numbered 1 8)) ∧
  error pending = false ∧ hasDataArray (productData pending) = false ∧
  hasMore (effect (validResponse (numbered 9 8))
             (effect pending (onPage2 (numbered 1 8)))) = false.
Proof.
  assert (Hne : lastLoadedPage (onPage2 (numbered 1 8)) ≠ page (onPage2 (numbered 1 8)))
    by (vm_compute; discriminate).
  split; [exact Hne|]. split; [reflexivity|]. split; [reflexivity|].
  exact (proj1 (proj2 (data_after_no_data (onPage2 (numbered 1 8)) pending
                         (numbered 9 8) [] Hne eq_refl eq_refl))).
Defined.

(** X9. The guard of [handleManualLoad] reads the flags of the render the
    handler was created in.  Called on the state it was rendered in it is
    [handleManualLoad]; called again after a render it does nothing; called
    twice within one render while the button is enabled, both calls pass the
    guard and the page number goes up by two. *)
Theorem load_more_called_twice s :
  handleManualLoadIn s s = handleManualLoad s ∧
  handleManualLoad (handleManualLoad s) = handleManualLoad s ∧
  (isLoadingMore s = false → hasMore s = true →
     page (handleManualLoadIn s (handleManualLoadIn s s)) = page s + 2 ∧
     isLoadingMore (handleManualLoadIn s (handleManualLoadIn s s)) = true ∧
     allProducts (handleManualLoadIn s (handleManualLoadIn s s)) = allProducts s ∧
     hasMore (handleManualLoadIn s (handleManualLoadIn s s)) = hasMore s ∧
     lastLoadedPage (handleManualLoadIn s (handleManualLoadIn s s))
       = lastLoadedPage s).
Proof.
  split; [reflexivity|]. split.
  - destruct (handleManualLoad_cases s) as [[_ Heq]|(_ & _ & Heq)].
    + by rewrite !Heq.
    + rewrite Heq. reflexivity.
  - intros Hfl Hmore. unfold handleManualLoadIn.
    rewrite Hfl, Hmore. simpl. repeat split; try done. lia.
Qed.

Lemma load_more_called_twice_witness :
  isLoadingMore initial = false ∧ hasMore initial = true ∧
  page (handleManualLoadIn initial (handleManualLoadIn initial initial))
    = page initial + 2.
Proof.
  split; [reflexivity|]. split; [reflexivity|].
  exact (proj1 (proj2 (proj2 (load_more_called_twice initial)) eq_refl eq_refl)).
Defined.

(** X10. The effect calls [productFetch()] each time it runs, also when the
    guard stops it: the calls made in a run are as many as the effect ran. *)
Theorem refetch_on_every_effect es s :
  refetchCalls (run es s) = (refetchCalls s + deliveries es)%nat.
Proof.
  revert s. induction es as [|e es IH]; intros s.
  - simpl. unfold deliveries. simpl. lia.
  - simpl. rewrite IH. unfold deliveries. destruct e as [r|]; simpl.
    + destruct (effect_cases r s)
        as [[_ ->]|[(_ & _ & ->)|[(_ & ->)|(_ & _ & _ & ->)]]]; simpl; lia.
    + by destruct (handleManualLoad_cases s) as [[_ ->]|(_ & _ & ->)].
Qed.

(** X11. Whatever the query result, the in-flight flag is down once the
    effect has run, in every state a run from the mount state leads to. *)
Theorem effect_clears_in_flight es r :
  isLoadingMore (effect r (run es initial)) = false.
Proof.
  destruct (state_inv_run es) as (_ & _ & Hfl & _).
  destruct (effect_cases r (run es initial))
    as [[Hg ->]|[(_ & _ & ->)|[(_ & ->)|(_ & _ & _ & ->)]]]; simpl; try done.
  destruct (isLoadingMore (run es initial)); [|done].
  destruct Hfl as [_ Hlt]; [done|]. lia.
Qed.

(** X12. The page number never goes down, and a run raises it by at most
    the number of clicks in it. *)
Theorem page_bounds es s :
  page s ≤ page (run es s) ≤ page s + Z.of_nat (clicks es).
Proof.
  revert s. induction es as [|e es IH]; intros s.
  - simpl. unfold clicks. simpl. lia.
  - simpl. specialize (IH (step s e)). unfold clicks in *.
    destruct e as [r|]; simpl in *.
    + destruct (effect_cases r s)
        as [[_ Heq]|[(_ & _ & Heq)|[(_ & Heq)|(_ & _ & _ & Heq)]]];
        rewrite Heq in IH; simpl in IH; rewrite Heq; lia.
    + destruct (handleManualLoad_cases s) as [[_ Heq]|(_ & _ & Heq)];
        rewrite Heq in IH; simpl in IH; rewrite Heq; lia.
Qed.

End Ending.

(** ** The rendered list view *)

Section Rendered.

Import ProductCard Spec ProductCardView Samples.

Implicit Types (s : ProductCard.State) (r : QueryResult)
  (es : list ProductCard.Event) (pathname : string) (loading : bool).

(** X13. While the grid is on screen the button and its handler agree: if
    the button is there and enabled, a click raises the in-flight flag and
    moves to the next page; if it is absent or disabled, the handler would
    do nothing. *)
Theorem button_agrees_with_handler pathname loading s cards footer :
  view pathname loading s = GridView cards footer →
  (canLoadMore (view pathname loading s) = true →
     isLoadingMore (handleManualLoad s) = true ∧
     page (handleManualLoad s) = page s + 1) ∧
  (canLoadMore (view pathname loading s) = false → handleManualLoad s = s).
Proof.
  unfold view.
  destruct (loading && (page s =? 1)); [done|].
  destruct (negb loading && _); [done|].
  intros _. simpl.
  destruct (handleManualLoad_cases s) as [[Hb Heq]|(Hfl & Hm & Heq)].
  - split; [|done].
    destruct (hasMore s), (isLoadingMore s); simpl in *; try done;
      destruct (0 <? _)%nat; done.
  - rewrite Hm, Hfl, Heq. simpl. done.
Qed.

Lemma button_agrees_with_handler_witness :
  view "/product-requests" false (effect (validResponse (numbered 1 8)) initial)
    = GridView
        (List.map (card true) (numbered 1 8)) (LoadMoreButton false) ∧
  page (handleManualLoad (effect (validResponse (numbered 1 8)) initial)) = 2.
Proof.
  assert (Hv : view "/product-requests" false
                 (effect (validResponse (numbered 1 8)) initial)
               = GridView (List.map (card true) (numbered 1 8)) (LoadMoreButton false))
    by (vm_compute; reflexivity).
  split; [exact Hv|].
  exact (proj2 (proj1 (button_agrees_with_handler _ _ _ _ _ Hv)
                  ltac:(rewrite Hv; reflexivity))).
Defined.

(** X14. A first page without products gives the empty state: when the
    effect runs on page 1 with a result that is absent, not an array or an
    empty array, the view (query not loading) is the "No product requests
    found" message, and no button is offered. *)
Theorem first_page_without_products pathname s r :
  page s = 1 → lastLoadedPage s ≠ page s → error r = false →
  data_of (productData r) = [] →
  view pathname false (effect r s) = EmptyView.
Proof.
  intros Hp Hne Herr Hdata.
  destruct (effect_cases r s)
    as [[Hg _]|[(_ & He & _)|[(_ & Heq)|(_ & _ & _ & Heq)]]]; try congruence.
  - rewrite Heq. unfold view, mergeUpdater. simpl.
    by rewrite Hp, Hdata.
  - rewrite Heq. unfold view. simpl. by rewrite Hp.
Qed.

Lemma first_page_without_products_witness :
  page initial = 1 ∧ lastLoadedPage initial ≠ page initial ∧
  error (validResponse []) = false ∧
  data_of (productData (validResponse [])) = [] ∧
  view "/" false (effect (validResponse []) initial) = EmptyView.
Proof.
  assert (Hne : lastLoadedPage initial ≠ page initial) by (simpl; lia).
  split; [reflexivity|]. split; [exact Hne|].
  split; [reflexivity|]. split; [reflexivity|].
  exact (first_page_without_products "/" initial (validResponse [])
           eq_refl Hne eq_refl eq_refl).
Defined.

Lemma effect_stringIds r s :
  Forall stringId (data_of (productData r)) →
  Forall stringId (allProducts s) → Forall stringId (allProducts (effect r s)).
Proof.
  intros Hdata Hs.
  destruct (effect_cases r s)
    as [[_ ->]|[(_ & _ & ->)|[(_ & ->)|(_ & _ & _ & ->)]]]; simpl; try done.
  - unfold mergeUpdater. destruct (page s =? 1); simpl; [done|].
    apply Forall_app. split; [done|].
    apply Forall_forall. intros q Hq%newProducts_subset.
    by eapply Forall_forall in Hdata.
  - by destruct (page s =? 1).
Qed.

Lemma run_stringIds es s :
  Forall deliversStringIds es →
  Forall stringId (allProducts s) → Forall stringId (allProducts (run es s)).
Proof.
  intros Hes. revert s.
  induction Hes as [|e es He _ IH]; intros s Hs; [done|].
  simpl. apply IH. destruct e as [r|]; simpl.
  - by apply effect_stringIds.
  - by destruct (handleManualLoad_cases s) as [[_ ->]|(_ & _ & ->)].
Qed.

(** On a card of a product with a string identifier the React key is that
    string. *)
Lemma card_reactKey (travelerPage : bool) (l : list Product) (k : string) :
  Forall stringId l → k ∈ reactKeys (List.map (card travelerPage) l) →
  Some (JStr k) ∈ ids l.
Proof.
  unfold reactKeys, ids. induction l as [|p l IH]; simpl.
  - by intros _ ?%elem_of_nil.
  - intros [Hp Hl]%Forall_cons. unfold stringId in Hp. unfold card at 1.
    destruct (id_of p) as [[| | |x]|] eqn:Hid; simpl; try done;
      try (intros Hk; right; by apply IH).
    destruct (negb (String.eqb x "")); simpl.
    + intros [->|Hk]%elem_of_cons; [by left | right; by apply IH].
    + intros Hk. right. by apply IH.
Qed.

Lemma reactKeys_distinct (travelerPage : bool) (l : list Product) :
  Forall stringId l → NoDup (ids l) →
  NoDup (reactKeys (List.map (card travelerPage) l)).
Proof.
  induction l as [|p l IH]; [constructor|].
  intros Hall Hnd. pose proof Hall as [Hp Hl]%Forall_cons.
  change (ids (p :: l)) with (id_of p :: ids l) in Hnd.
  apply NoDup_cons in Hnd as [Hnew Hnd].
  specialize (IH Hl Hnd).
  unfold reactKeys in *. simpl. unfold card at 1.
  destruct (negb (truthy (id_of p))) eqn:Hshown; simpl; [done|].
  apply NoDup_cons. split; [|done].
  intros Hk. unfold stringId in Hp.
  destruct (id_of p) as [[| | |x]|] eqn:Hid; simpl in *; try done.
  apply Hnew. by apply (card_reactKey travelerPage).
Qed.

(** X15. When the delivered arrays hold products with string identifiers and
    none of them repeats one, the cards of the grid have pairwise distinct
    React keys at every point of a run.  (React compares keys as strings:
    without the first condition the identifiers 1 and "1" pass the merge as
    different and meet as one key.) *)
Theorem grid_keys_distinct pathname loading es cards footer :
  Forall deliversStringIds es →
  Forall deliversUniqueIds es →
  view pathname loading (run es initial) = GridView cards footer →
  NoDup (reactKeys cards).
Proof.
  intros Hstr Hes. unfold view.
  destruct (loading && _); [done|].
  destruct (negb loading && _); [done|].
  intros [= <- _].
  apply reactKeys_distinct.
  - apply run_stringIds; [done | constructor].
  - apply run_unique; [done | constructor].
Qed.

Lemma grid_keys_distinct_witness :
  Forall deliversStringIds [Delivered (validResponse [tea; mug])] ∧
  Forall deliversUniqueIds [Delivered (validResponse [tea; mug])] ∧
  view "/" false (run [Delivered (validResponse [tea; mug])] initial)
    = GridView (List.map (card false) [tea; mug]) (LoadMoreButton false) ∧
  NoDup (reactKeys (List.map (card false) [tea; mug])).
Proof.
  assert (Hstr : Forall deliversStringIds [Delivered (validResponse [tea; mug])]).
  { repeat constructor; vm_compute; exact I. }
  assert (Hes : Forall deliversUniqueIds [Delivered (validResponse [tea; mug])]).
  { repeat constructor; simpl; unfold uniqueIds;
      apply (bool_decide_unpack _); vm_compute; reflexivity. }
  assert (Hv : view "/" false (run [Delivered (validResponse [tea; mug])] initial)
               = GridView (List.map (card false) [tea; mug]) (LoadMoreButton false))
    by (vm_compute; reflexivity).
  split; [exact Hstr|]. split; [exact Hes|]. split; [exact Hv|].
  exact (grid_keys_distinct _ _ _ _ _ Hstr Hes Hv).
Defined.

(** A number and the string of its digits are different identifiers for the
    merge and the same key for React. *)
Example number_and_digits_share_a_key :
  uniqueIds [ {[ "id" := JNum 1 ]}; {[ "id" := JStr "1" ]} ] ∧
  reactKeys (List.map (card false) [ {[ "id" := JNum 1 ]}; {[ "id" := JStr "1" ]} ])
    = ["1"; "1"]%string.
Proof.
  split; [|vm_compute; reflexivity].
  unfold uniqueIds. apply (bool_decide_unpack _). vm_compute. reflexivity.
Qed.

Lemma prefix_append (s t : string) : String.prefix s (s +:+ t) = true.
Proof.
  apply String.prefix_correct.
  induction s as [|a s IH]; simpl.
  - by destruct t.
  - by rewrite IH.
Qed.

Lemma includes_append (a search b : string) :
  includes (a +:+ search +:+ b) search = true.
Proof.
  induction a as [|c a IH].
  - change (includes (search +:+ b) search = true).
    pose proof (prefix_append search b) as Hpre.
    destruct (search +:+ b); cbn [includes]; by rewrite Hpre.
  - change (includes (String c (a +:+ search +:+ b)) search = true).
    cbn [includes]. rewrite IH. apply orb_true_r.
Qed.

(** X16. Every card on screen has a truthy key, and it carries the offer
    button, for its own identifier, exactly when the path contains
    "/product-requests"; any path with that text somewhere in it counts. *)
Theorem offer_button_on_cards pathname loading s cards footer (c : Card) :
  view pathname loading s = GridView cards footer →
  Some c ∈ cards →
  truthy (key c) = true ∧
  offerFor c = (if isTravelerPage pathname then key c else None) ∧
  (∀ a b : string,
     pathname = a +:+ "/product-requests" +:+ b → offerFor c = key c).
Proof.
  unfold view.
  destruct (loading && _); [done|].
  destruct (negb loading && _); [done|].
  intros [= <- _] Hin.
  apply list_elem_of_In, in_map_iff in Hin as (p & Hp & _).
  unfold card in Hp. destruct (truthy (id_of p)) eqn:Hid; [|done].
  simpl in Hp. injection Hp as <-. simpl.
  split; [done|]. split.
  - by rewrite andb_true_r.
  - intros a b ->. unfold isTravelerPage.
    by rewrite includes_append.
Qed.

Lemma offer_button_on_cards_witness :
  view "/th/product-requests/open" false (effect (validResponse [tea]) initial)
    = GridView (List.map (card true) [tea]) (LoadMoreButton false) ∧
  offerFor (mkCard (Some (JStr "a")) (JStr "Matcha tea") (JStr "Not specified")
              (JStr "Not specified") "Price not set" (Some (JStr "a")))
    = Some (JStr "a").
Proof.
  assert (Hv : view "/th/product-requests/open" false
                 (effect (validResponse [tea]) initial)
               = GridView (List.map (card true) [tea]) (LoadMoreButton false))
    by (vm_compute; reflexivity).
  assert (Hc : Some (mkCard (Some (JStr "a")) (JStr "Matcha tea")
                       (JStr "Not specified") (JStr "Not specified")
                       "Price not set" (Some (JStr "a")))
               ∈ List.map (card true) [tea])
    by (vm_compute; left).
  split; [exact Hv|].
  exact (proj2 (proj2 (offer_button_on_cards _ _ _ _ _ _ Hv Hc))
           "/th" "/open" eq_refl).
Defined.

End Rendered.

(** ** The detail page: lookup and form *)

Section DetailForm.

Import ProductDetailPage ProductDetailForm Samples.

Implicit Types (product : Product) (s : ProductDetailPage.State)
  (i j : Input) (es : list UiEvent).

(** X17. The lookup compares [String(product.id)] with the route parameter.
    The "not found" page comes up exactly when no catalog entry matches;
    otherwise the page is mounted on the first matching entry, with edit mode
    off and the entry as working copy. *)
Theorem mount_finds_first_match (products : list Product) (id : string) :
  match mount products id with
  | None => ∀ p : Product, p ∈ products → String_ (id_of p) ≠ id
  | Some (product, s0) =>
      s0 = initial product ∧ String_ (id_of product) = id ∧
      ∃ before after : list Product,
        products = before ++ product :: after ∧
        ∀ p : Product, p ∈ before → String_ (id_of p) ≠ id
  end.
Proof.
  unfold mount, findProduct.
  induction products as [|q products IH]; simpl.
  - by intros p ?%elem_of_nil.
  - destruct (String.eqb (String_ (id_of q)) id) eqn:Hq.
    + apply String.eqb_eq in Hq. split; [done|]. split; [done|].
      exists [], products. split; [done|]. by intros p ?%elem_of_nil.
    + apply String.eqb_neq in Hq.
      destruct (find _ products) as [product|].
      * destruct IH as (_ & Hid & before & after & -> & Hbefore).
        split; [done|]. split; [done|].
        exists (q :: before), after. split; [done|].
        intros p [->|Hp]%elem_of_cons; [done | by apply Hbefore].
      * intros p [->|Hp]%elem_of_cons; [done | by apply IH].
Qed.

Example numeric_id_is_found_by_its_decimal :
  mount (numbered 3 4) "5" = Some ({[ "id" := JNum 5 ]}, initial {[ "id" := JNum 5 ]}) ∧
  mount [tea; nameless; mug] "undefined" = Some (nameless, initial nameless) ∧
  mount [tea; mug] "c" = None.
Proof. vm_compute. done. Qed.

(** What a change does to the [value] of each field: the name and the
    category field read the key they write, the description box reads "desc"
    and writes "description". *)
Lemma onChange_values i (value : string) s :
  inputValue i (onChange i value s)
    = match i with
      | DescriptionTextarea => inputValue i s
      | _ => Some (JStr value)
      end ∧
  (∀ j, j ≠ i → inputValue j (onChange i value s) = inputValue j s) ∧
  editedProduct (onChange i value s) !! inputName i = Some (JStr value) ∧
  isEditing (onChange i value s) = isEditing s.
Proof.
  unfold onChange, handleChange. simpl. repeat split.
  - destruct i; simpl; by simplify_map_eq.
  - intros j Hj. destruct i, j; simpl; try done; by simplify_map_eq.
  - by simplify_map_eq.
Qed.

Lemma typing_keeps_edit_mode product (typed : list (Input * string)) s :
  isEditing s = true →
  isEditing (uiRun product (uncurry Typed <$> typed) s) = true.
Proof.
  revert s. induction typed as [|[i v] typed IH]; intros s Hs; [done|].
  simpl. apply IH. by rewrite Hs.
Qed.

(** X19. Edits are shown in edit mode only: after Edit, any typing and
    Confirm, the page shows the name, description and category of the source
    product, as it did when it was mounted. *)
Theorem confirmed_edits_are_not_displayed product (typed : list (Input * string)) :
  render product
    (uiRun product (MainClicked :: (uncurry Typed <$> typed) ++ [MainClicked])
       (initial product))
    = render product (initial product).
Proof.
  change (MainClicked :: (uncurry Typed <$> typed) ++ [MainClicked])
    with ([MainClicked] ++ (uncurry Typed <$> typed) ++ [MainClicked]).
  unfold uiRun. rewrite !foldl_app. simpl.
  pose proof (typing_keeps_edit_mode product typed
                (mainButton (initial product)) eq_refl) as Hon.
  unfold uiRun in Hon. unfold mainButton at 1. rewrite Hon. done.
Qed.

Example confirmed_edit_is_kept_but_not_displayed :
  let s := uiRun mug [MainClicked; Typed NameInput "Cup"; MainClicked] (initial mug) in
  editedProduct s !! "name" = Some (JStr "Cup") ∧
  shownName (render mug s) = Some (JStr "Enamel mug").
Proof. vm_compute. done. Qed.

(** X20. The main button is a toggle: pressing it twice (Edit then Confirm,
    or Confirm then Edit) gives back the state it started from, working copy
    included. *)
Theorem main_button_twice s : mainButton (mainButton s) = s.
Proof. destruct s as [[] copy]; reflexivity. Qed.

(** X21. Changes compose as writes to a record: a second change of the same
    field replaces the first, and changes of different fields can be made in
    either order. *)
Theorem changes_compose (name name' value value' : string) s :
  handleChange name value' (handleChange name value s) = handleChange name value' s ∧
  (name ≠ name' →
     handleChange name value (handleChange name' value' s)
       = handleChange name' value' (handleChange name value s)).
Proof.
  unfold handleChange. simpl. split.
  - by rewrite insert_insert_eq.
  - intros Hne. f_equal. by apply insert_insert_ne.
Qed.

Lemma changes_compose_witness :
  "name" ≠ "category" ∧
  handleChange "name" "Cup" (handleChange "category" "Kitchen" (initial mug))
    = handleChange "category" "Kitchen" (handleChange "name" "Cup" (initial mug)).
Proof.
  assert (Hne : "name" ≠ "category") by discriminate.
  split; [exact Hne|].
  exact (proj2 (changes_compose "name" "category" "Cup" "Kitchen" (initial mug)) Hne).
Defined.

Lemma uiStep_frame product s (e : UiEvent) (k : string) :
  (k ≠ "name" → k ≠ "description" → k ≠ "category" →
     editedProduct s !! k = product !! k) →
  k ≠ "name" → k ≠ "description" → k ≠ "category" →
  editedProduct (uiStep product s e) !! k = product !! k.
Proof.
  intros Hs H1 H2 H3. destruct e as [| |i v]; simpl.
  - unfold mainButton. destruct (isEditing s); simpl; by apply Hs.
  - destruct (isEditing s); simpl; [done | by apply Hs].
  - destruct (isEditing s); [|by apply Hs].
    unfold onChange, handleChange. simpl.
    rewrite lookup_insert_ne; [by apply Hs|]. by destruct i.
Qed.

Lemma uiStep_strings product s (e : UiEvent) (k : string) :
  (editedProduct s !! k = product !! k ∨
   ∃ v : string, editedProduct s !! k = Some (JStr v)) →
  editedProduct (uiStep product s e) !! k = product !! k ∨
  ∃ v : string, editedProduct (uiStep product s e) !! k = Some (JStr v).
Proof.
  intros Hs. destruct e as [| |i v]; simpl.
  - unfold mainButton. by destruct (isEditing s).
  - destruct (isEditing s); simpl; [by left | done].
  - destruct (isEditing s); [|done].
    unfold onChange, handleChange. simpl.
    destruct (decide (inputName i = k)) as [<-|Hne].
    + right. exists v. by rewrite lookup_insert_eq.
    + by rewrite lookup_insert_ne.
Qed.

Lemma uiRun_frame product es (k : string) :
  k ≠ "name" → k ≠ "description" → k ≠ "category" →
  editedProduct (uiRun product es (initial product)) !! k = product !! k.
Proof.
  intros H1 H2 H3. induction es as [|e es IH] using rev_ind; [done|].
  unfold uiRun in *. rewrite foldl_app. simpl.
  by apply uiStep_frame.
Qed.

Lemma uiRun_strings product es (k : string) :
  editedProduct (uiRun product es (initial product)) !! k = product !! k ∨
  ∃ v : string,
    editedProduct (uiRun product es (initial product)) !! k = Some (JStr v).
Proof.
  induction es as [|e es IH] using rev_ind; [by left|].
  unfold uiRun in *. rewrite foldl_app. simpl.
  by apply uiStep_strings.
Qed.

(** X22. Whatever the user does on the detail page, the working copy differs
    from the source product in the keys "name", "description" and "category"
    at most, and a key that differs holds a string.  So the identifier, the
    budget and the key "desc" of the working copy are never changed. *)
Theorem working_copy_frame product es (k : string) :
  (k ≠ "name" → k ≠ "description" → k ≠ "category" →
     editedProduct (uiRun product es (initial product)) !! k = product !! k) ∧
  (editedProduct (uiRun product es (initial product)) !! k = product !! k ∨
   ∃ v : string,
     editedProduct (uiRun product es (initial product)) !! k = Some (JStr v)) ∧
  editedProduct (uiRun product es (initial product)) !! "desc" = product !! "desc".
Proof.
  split; [apply uiRun_frame|]. split; [apply uiRun_strings|].
  by apply uiRun_frame.
Qed.

Lemma working_copy_frame_witness :
  "id" ≠ "name" ∧ "id" ≠ "description" ∧ "id" ≠ "category" ∧
  editedProduct
    (uiRun mug [MainClicked; Typed DescriptionTextarea "Chipped"; MainClicked]
       (initial mug)) !! "id" = mug !! "id".
Proof.
  assert (H1 : "id" ≠ "name") by discriminate.
  assert (H2 : "id" ≠ "description") by discriminate.
  assert (H3 : "id" ≠ "category") by discriminate.
  split; [exact H1|]. split; [exact H2|]. split; [exact H3|].
  exact (proj1 (working_copy_frame mug
                  [MainClicked; Typed DescriptionTextarea "Chipped"; MainClicked]
                  "id") H1 H2 H3).
Defined.

End DetailForm.

(** ** The detail page: what the fields show *)

Section DetailDom.

Import ProductDetailPage ProductDetailForm ProductDetailDom Samples.

Implicit Types (product : Product) (s : ProductDetailPage.State)
  (i j : Input) (f : Form) (pg : Page) (es : list UiEvent)
  (typed : list (Input * string)).

Lemma afterRender_settled s f : afterRender s (afterRender s f) = afterRender s f.
Proof.
  unfold afterRender, fieldAfterRender. simpl.
  by destruct (controlled (editedProduct s !! "name")),
              (controlled (editedProduct s !! "desc")),
              (controlled (editedProduct s !! "category")).
Qed.

Lemma textOf_afterRender s f i : textOf i (afterRender s f) = fieldAfterRender s f i.
Proof. by destruct i. Qed.

Lemma textOf_setText i j (text : string) f :
  textOf j (setText i text f) = if decide (j = i) then text else textOf j f.
Proof. by destruct i, j. Qed.

Lemma domStep_page_inv product pg (e : UiEvent) :
  page_inv pg → page_inv (domStep product pg e).
Proof.
  unfold page_inv. destruct pg as [s [f|]]; simpl.
  - intros [Hon Hf]. destruct e as [| |i text]; simpl.
    + unfold clickMain, mainButton. simpl. by rewrite Hon.
    + unfold clickCancel. simpl. by rewrite Hon.
    + unfold typeInto. simpl. split; [done|]. apply afterRender_settled.
  - intros Hoff. destruct e as [| |i text]; simpl.
    + unfold clickMain, mainButton. simpl. rewrite Hoff. simpl.
      split; [done|]. apply afterRender_settled.
    + unfold clickCancel. simpl. by rewrite Hoff.
    + done.
Qed.

Lemma domRun_snoc product es (e : UiEvent) pg :
  domRun product (es ++ [e]) pg = domStep product (domRun product es pg) e.
Proof. unfold domRun. by rewrite foldl_app. Qed.

Lemma domRun_page_inv product es : page_inv (domRun product es (opened product)).
Proof.
  induction es as [|e es IH] using rev_ind; [done|].
  unfold domRun in *. rewrite foldl_app. simpl.
  by apply domStep_page_inv.
Qed.

Lemma domStep_state product pg (e : UiEvent) :
  page_inv pg → state (domStep product pg e) = uiStep product (state pg) e.
Proof.
  unfold page_inv. destruct pg as [s [f|]]; simpl.
  - intros [Hon _]. destruct e as [| |i text]; simpl; try done.
    + unfold clickCancel. simpl. by rewrite Hon.
    + by rewrite Hon.
  - intros Hoff. destruct e as [| |i text]; simpl; try done.
    + unfold clickCancel. simpl. by rewrite Hoff.
    + by rewrite Hoff.
Qed.

(** The component state of the page is the one the handlers compute. *)
Lemma domRun_state product es :
  state (domRun product es (opened product)) = uiRun product es (initial product).
Proof.
  induction es as [|e es IH] using rev_ind; [done|].
  unfold domRun, uiRun in *. rewrite !foldl_app. simpl.
  rewrite <- IH. apply domStep_state, domRun_page_inv.
Qed.

(** X18. In edit mode, typing into the name or the category field makes the
    field show the typed text.  The description box writes the key
    "description" and reads the key "desc": when the product has a "desc" the
    box goes back to it, and only when it has none does the box keep the typed
    text.  The other fields show what they showed. *)
Theorem typing_into_a_field product es i (text : string) :
  isEditing (state (domRun product es (opened product))) = true →
  shows i (typeInto i text (domRun product es (opened product)))
    = Some (match i with
            | DescriptionTextarea =>
                if controlled (product !! "desc")
                then String_ (product !! "desc") else text
            | _ => text
            end) ∧
  (∀ j, j ≠ i →
     shows j (typeInto i text (domRun product es (opened product)))
       = shows j (domRun product es (opened product))) ∧
  editedProduct (state (typeInto i text (domRun product es (opened product))))
    !! inputName i = Some (JStr text).
Proof.
  pose proof (domRun_page_inv product es) as Hinv.
  pose proof (domRun_state product es) as Hst.
  pose proof (uiRun_frame product es "desc") as Hdesc.
  destruct (domRun product es (opened product)) as [s [f|]];
    unfold page_inv in Hinv; simpl in *; [|intros Hon; congruence].
  destruct Hinv as [_ Hf]. intros _. subst s.
  unfold typeInto, shows. simpl.
  destruct (onChange_values i text (uiRun product es (initial product)))
    as (Hi & Hother & Hkey & _).
  split; [|split; [|done]].
  - f_equal. rewrite textOf_afterRender. unfold fieldAfterRender.
    rewrite Hi, textOf_setText, decide_True by done.
    destruct i; simpl; try done.
    by rewrite Hdesc.
  - intros j Hj. f_equal. rewrite textOf_afterRender. unfold fieldAfterRender.
    rewrite (Hother j Hj), textOf_setText, decide_False by done.
    rewrite <- Hf at 2. by rewrite textOf_afterRender.
Qed.

Lemma typing_into_a_field_witness :
  isEditing (state (domRun jug [MainClicked] (opened jug))) = true ∧
  shows DescriptionTextarea
    (typeInto DescriptionTextarea "Chipped" (domRun jug [MainClicked] (opened jug)))
    = Some "Stoneware, 1 l"%string ∧
  shows NameInput
    (typeInto NameInput "Carafe" (domRun jug [MainClicked] (opened jug)))
    = Some "Carafe"%string.
Proof.
  assert (Hon : isEditing (state (domRun jug [MainClicked] (opened jug))) = true)
    by reflexivity.
  split; [exact Hon|]. split.
  - exact (proj1 (typing_into_a_field jug [MainClicked]
                    DescriptionTextarea "Chipped" Hon)).
  - exact (proj1 (typing_into_a_field jug [MainClicked] NameInput "Carafe" Hon)).
Defined.

(** A product without "desc": the box is left to the browser and keeps the
    typed text while the form is on the page. *)
Example description_box_without_desc :
  shows DescriptionTextarea
    (typeInto DescriptionTextarea "Chipped" (domRun mug [MainClicked] (opened mug)))
    = Some "Chipped"%string ∧
  shows DescriptionTextarea (reopened mug [(DescriptionTextarea, "Chipped")])
    = Some ""%string.
Proof. split; vm_compute; reflexivity. Qed.

Lemma lastTyped_snoc i j (text : string) typed :
  lastTyped i (typed ++ [(j, text)])
    = if decide (j = i) then Some text else lastTyped i typed.
Proof.
  unfold lastTyped. rewrite filter_app, filter_cons, filter_nil. simpl.
  destruct (decide (j = i)); simpl.
  - by rewrite last_snoc.
  - by rewrite app_nil_r.
Qed.

Lemma inputName_inj i j : inputName i = inputName j → i = j.
Proof. by destruct i, j. Qed.

(** After Edit and a series of entries the form is on the page and the
    working copy holds, under the key of each field, the text last typed
    into it. *)
Lemma typed_is_kept product typed :
  isEditing (state (domRun product (MainClicked :: (uncurry Typed <$> typed))
                      (opened product))) = true ∧
  ∀ i (text : string),
    lastTyped i typed = Some text →
    editedProduct (state (domRun product (MainClicked :: (uncurry Typed <$> typed))
                            (opened product)))
      !! inputName i = Some (JStr text).
Proof.
  induction typed as [|[j v] typed [Hon IH]] using rev_ind.
  - split; [done|]. intros i text. by unfold lastTyped.
  - rewrite fmap_app.
    change (MainClicked :: (uncurry Typed <$> typed) ++ (uncurry Typed <$> [(j, v)]))
      with ((MainClicked :: (uncurry Typed <$> typed)) ++ [Typed j v]).
    rewrite domRun_snoc.
    pose proof (domRun_page_inv product
                  (MainClicked :: (uncurry Typed <$> typed))) as Hinv.
    unfold page_inv in Hinv.
    destruct (domRun product (MainClicked :: (uncurry Typed <$> typed))
                (opened product)) as [s [f|]];
      simpl in *; [|congruence].
    unfold typeInto. simpl. split; [done|].
    intros i text. rewrite lastTyped_snoc.
    destruct (decide (j = i)) as [->|Hne].
    + intros [= ->]. by rewrite lookup_insert_eq.
    + intros Hlast. rewrite lookup_insert_ne; [by apply IH|].
      by intros ?%inputName_inj.
Qed.

(** X23. Confirm keeps what was typed: after Edit, a series of entries,
    Confirm and Edit again, the working copy holds under the key of each
    field the text last typed into it, and the name and the category field
    show that text. *)
Theorem reopened_form_shows_edits product typed i (text : string) :
  lastTyped i typed = Some text →
  isEditing (state (reopened product typed)) = true ∧
  editedProduct (state (reopened product typed)) !! inputName i
    = Some (JStr text) ∧
  (i ≠ DescriptionTextarea → shows i (reopened product typed) = Some text).
Proof.
  intros Hlast. unfold reopened.
  change (MainClicked :: (uncurry Typed <$> typed) ++ [MainClicked; MainClicked])
    with ((MainClicked :: (uncurry Typed <$> typed))
            ++ [MainClicked; MainClicked]).
  destruct (typed_is_kept product typed) as [Hon Hkept].
  specialize (Hkept i text Hlast).
  unfold domRun at 1 2 3. rewrite foldl_app.
  fold (domRun product (MainClicked :: (uncurry Typed <$> typed)) (opened product)).
  destruct (domRun product (MainClicked :: (uncurry Typed <$> typed))
              (opened product)) as [s fm].
  simpl in *. unfold clickMain, mainButton. simpl. rewrite Hon. simpl.
  split; [done|]. split; [done|].
  intros Hi. unfold shows. simpl. f_equal.
  destruct i; simpl in *; try done;
    unfold fieldAfterRender; simpl; by rewrite Hkept.
Qed.

Lemma reopened_form_shows_edits_witness :
  lastTyped NameInput [(NameInput, "Cu"); (CategoryInput, "Kitchen"); (NameInput, "Cup")]
    = Some "Cup"%string ∧
  shows NameInput
    (reopened mug [(NameInput, "Cu"); (CategoryInput, "Kitchen"); (NameInput, "Cup")])
    = Some "Cup"%string.
Proof.
  assert (Hl : lastTyped NameInput
                 [(NameInput, "Cu"); (CategoryInput, "Kitchen"); (NameInput, "Cup")]
               = Some "Cup"%string) by reflexivity.
  assert (Hi : NameInput ≠ DescriptionTextarea) by discriminate.
  split; [exact Hl|].
  exact (proj2 (proj2 (reopened_form_shows_edits mug _ NameInput "Cup" Hl)) Hi).
Defined.

(** C9 at the description box.  The text typed into it is kept in the
    working copy, under the key "description"; the box reads the key "desc",
    so when edit mode is entered again it shows the description of the source
    product and not the edited one. *)
Theorem description_edit_is_not_shown_again :
  lastTyped DescriptionTextarea [(DescriptionTextarea, "Chipped")]
    = Some "Chipped"%string ∧
  isEditing (state (reopened jug [(DescriptionTextarea, "Chipped")])) = true ∧
  editedProduct (state (reopened jug [(DescriptionTextarea, "Chipped")]))
    !! "description" = Some (JStr "Chipped") ∧
  editedProduct (state (reopened jug [(DescriptionTextarea, "Chipped")]))
    !! "desc" = jug !! "desc" ∧
  shows DescriptionTextarea (reopened jug [(DescriptionTextarea, "Chipped")])
    = Some "Stoneware, 1 l"%string.
Proof. repeat split; vm_compute; reflexivity. Qed.

End DetailDom.
